(** * Order settlement and ledger consistency of the e-commerce web app

    A shallow embedding of the order handlers of
    [src/components/Purchases.tsx], [src/components/Sales.tsx] and
    [src/components/Suppliers.tsx], and of the row-level-security policies
    and constraints of the schema migration, followed by the properties the
    specification states about them.

    Modelling conventions.
    - A JavaScript [number] is an exact rational ([Q]); the rounding of
      IEEE doubles and of the [numeric(15,2)] columns is outside the model.
    - A uuid or text value is a [string]; a table keyed by [id] of which
      the handlers touch one column is a [gmap] from the id to that column;
      a table the handlers only append to is the list of its rows.
    - Every [await supabase...] call is a function on the [Database] that
      fails exactly when the schema refuses the statement (row-level
      security, a foreign key, a [UNIQUE] constraint); transport failures
      are not modelled.
    - A handler returns the database it leaves behind and an [Outcome]
      telling which [alert] it raised, or that it ran to its last line. *)

From stdpp Require Import gmap strings list pretty sorting.
From Stdlib Require Import QArith Lqa Ascii.

Local Open Scope string_scope.

(** ** Numbers *)

(** [a < b] on JavaScript numbers, as a boolean. *)
Definition Qltb (a b : Q) : bool := negb (Qle_bool b a).

(** ** Schema: roles, tables and policies *)

(** [role text ... CHECK (role IN ('admin', 'manager', 'staff'))] *)
Inductive Role := admin | manager | staff.

#[global] Instance Role_eq_dec : EqDecision Role.
Proof. solve_decision. Defined.

Inductive Table :=
  | t_categories | t_products | t_suppliers | t_customers
  | t_purchase_orders | t_purchase_order_items
  | t_sales_orders | t_sales_order_items
  | t_payments | t_cash_transactions.

Inductive Command := SELECT | INSERT | UPDATE | DELETE.

(** The two expressions that occur in [USING] and [WITH CHECK]:
    [true], and
    [EXISTS (SELECT 1 FROM profiles WHERE profiles.id = auth.uid()
             AND profiles.role IN (...))]. *)
Inductive PolicyExpr :=
  | p_true
  | p_role_in (rs : list Role).

(** The policy each [CREATE POLICY] statement attaches to a table and a
    command. For [UPDATE] the [USING] and [WITH CHECK] expressions are the
    same in every statement, so one expression stands for both. *)
Definition policy (t : Table) (c : Command) : PolicyExpr :=
  match c with
  | SELECT => p_true
  | INSERT =>
      match t with
      | t_customers | t_sales_orders | t_sales_order_items => p_true
      | _ => p_role_in [admin; manager]
      end
  | UPDATE => p_role_in [admin; manager]
  | DELETE => p_role_in [admin]
  end.

(** ** Rows *)

(** [status text ... CHECK (status IN ('pending', 'completed', 'cancelled'))] *)
Inductive Status := pending | completed | cancelled.

Module PurchaseOrder.
Record t := mk {
  id : string;
  order_number : string;
  supplier_id : string;
  total_amount : Q;
  paid_amount : Q;
  status : Status;
  notes : string;
  created_by : option string
}.
End PurchaseOrder.

Module SalesOrder.
Record t := mk {
  id : string;
  order_number : string;
  customer_id : option string;
  total_amount : Q;
  paid_amount : Q;
  discount : Q;
  status : Status;
  notes : string;
  created_by : option string
}.
End SalesOrder.

(** A row of [purchase_order_items] or of [sales_order_items]; [order_id]
    is the column [purchase_order_id], respectively [sales_order_id]. *)
Module ItemRow.
Record t := mk {
  order_id : string;
  product_id : string;
  quantity : Q;
  unit_price : Q;
  total_price : Q
}.
End ItemRow.

(** [type OrderItem = { product_id; quantity; unit_price }], a line of the
    order form. *)
Module OrderItem.
Record t := mk {
  product_id : string;
  quantity : Q;
  unit_price : Q
}.
End OrderItem.

(** ** The database *)

Record Database := mkDatabase {
  profiles : gmap string Role;              (* id -> role *)
  products : gmap string Q;                 (* id -> stock_quantity *)
  suppliers : gmap string Q;                (* id -> debt_balance *)
  customers : gmap string Q;                (* id -> debt_balance *)
  purchase_orders : list PurchaseOrder.t;
  purchase_order_items : list ItemRow.t;
  sales_orders : list SalesOrder.t;
  sales_order_items : list ItemRow.t
}.

Definition set_products (f : gmap string Q → gmap string Q) (db : Database) :=
  mkDatabase (profiles db) (f (products db)) (suppliers db) (customers db)
    (purchase_orders db) (purchase_order_items db)
    (sales_orders db) (sales_order_items db).

Definition set_suppliers (f : gmap string Q → gmap string Q) (db : Database) :=
  mkDatabase (profiles db) (products db) (f (suppliers db)) (customers db)
    (purchase_orders db) (purchase_order_items db)
    (sales_orders db) (sales_order_items db).

Definition set_customers (f : gmap string Q → gmap string Q) (db : Database) :=
  mkDatabase (profiles db) (products db) (suppliers db) (f (customers db))
    (purchase_orders db) (purchase_order_items db)
    (sales_orders db) (sales_order_items db).

Definition set_purchase_orders
    (f : list PurchaseOrder.t → list PurchaseOrder.t) (db : Database) :=
  mkDatabase (profiles db) (products db) (suppliers db) (customers db)
    (f (purchase_orders db)) (purchase_order_items db)
    (sales_orders db) (sales_order_items db).

Definition set_purchase_order_items
    (f : list ItemRow.t → list ItemRow.t) (db : Database) :=
  mkDatabase (profiles db) (products db) (suppliers db) (customers db)
    (purchase_orders db) (f (purchase_order_items db))
    (sales_orders db) (sales_order_items db).

Definition set_sales_orders
    (f : list SalesOrder.t → list SalesOrder.t) (db : Database) :=
  mkDatabase (profiles db) (products db) (suppliers db) (customers db)
    (purchase_orders db) (purchase_order_items db)
    (f (sales_orders db)) (sales_order_items db).

Definition set_sales_order_items
    (f : list ItemRow.t → list ItemRow.t) (db : Database) :=
  mkDatabase (profiles db) (products db) (suppliers db) (customers db)
    (purchase_orders db) (purchase_order_items db)
    (sales_orders db) (f (sales_order_items db)).

(** ** The access policy evaluator *)

Definition eval_policy (db : Database) (uid : string) (e : PolicyExpr) : bool :=
  match e with
  | p_true => true
  | p_role_in rs =>
      match profiles db !! uid with
      | Some r => bool_decide (r ∈ rs)
      | None => false
      end
  end.

(** Every policy is declared [TO authenticated]: a request without a
    session ([auth.uid()] is null) passes none of them. *)
Definition permits (db : Database) (auth : option string)
    (t : Table) (c : Command) : bool :=
  match auth with
  | Some uid => eval_policy db uid (policy t c)
  | None => false
  end.

(** ** The store calls of the handlers *)

(** Why the database refused a statement. *)
Inductive DbError :=
  | rls_violation           (* new row violates row-level security policy *)
  | invalid_uuid            (* invalid input syntax for type uuid: "" *)
  | foreign_key_violation
  | unique_violation.

(** What a handler run needs from outside the component: the session of
    the supabase client, [profile?.id] of the auth context, the value of
    [Date.now()] and the [gen_random_uuid()] of the header row. *)
Record Env := mkEnv {
  auth_uid : option string;
  profile_id : option string;
  date_now : Z;
  new_uuid : string
}.

(** A nullable uuid column that [REFERENCES] the keys of [m]. *)
Definition fk_ok {V} (m : gmap string V) (ref : option string) : bool :=
  match ref with
  | None => true
  | Some k => bool_decide (is_Some (m !! k))
  end.

(** [supabase.from('purchase_orders').insert([row]).select().single()] *)
Definition insert_purchase_order (env : Env) (db : Database)
    (row : PurchaseOrder.t) : DbError + Database :=
  if negb (permits db (auth_uid env) t_purchase_orders INSERT) then inl rls_violation
  else if bool_decide (PurchaseOrder.supplier_id row = "") then inl invalid_uuid
  else if negb (fk_ok (suppliers db) (Some (PurchaseOrder.supplier_id row)))
    then inl foreign_key_violation
  else if negb (fk_ok (profiles db) (PurchaseOrder.created_by row))
    then inl foreign_key_violation
  else if bool_decide (PurchaseOrder.order_number row
                         ∈ PurchaseOrder.order_number <$> purchase_orders db)
    then inl unique_violation
  else if bool_decide (PurchaseOrder.id row ∈ PurchaseOrder.id <$> purchase_orders db)
    then inl unique_violation
  else inr (set_purchase_orders (λ rows, (rows ++ [row])%list) db).

(** [supabase.from('sales_orders').insert([row]).select().single()] *)
Definition insert_sales_order (env : Env) (db : Database)
    (row : SalesOrder.t) : DbError + Database :=
  if negb (permits db (auth_uid env) t_sales_orders INSERT) then inl rls_violation
  else if negb (fk_ok (customers db) (SalesOrder.customer_id row))
    then inl foreign_key_violation
  else if negb (fk_ok (profiles db) (SalesOrder.created_by row))
    then inl foreign_key_violation
  else if bool_decide (SalesOrder.order_number row
                         ∈ SalesOrder.order_number <$> sales_orders db)
    then inl unique_violation
  else if bool_decide (SalesOrder.id row ∈ SalesOrder.id <$> sales_orders db)
    then inl unique_violation
  else inr (set_sales_orders (λ rows, (rows ++ [row])%list) db).

(** The checks one item row has to pass: [product_id] is a uuid and
    references a product. *)
Definition item_row_ok (db : Database) (r : ItemRow.t) : bool :=
  negb (bool_decide (ItemRow.product_id r = ""))
  && fk_ok (products db) (Some (ItemRow.product_id r)).

(** [supabase.from('purchase_order_items').insert(items)]: one statement,
    all rows or none. *)
Definition insert_purchase_order_items (env : Env) (db : Database)
    (items : list ItemRow.t) : DbError + Database :=
  if negb (permits db (auth_uid env) t_purchase_order_items INSERT) then inl rls_violation
  else if forallb (item_row_ok db) items
    then inr (set_purchase_order_items (λ rows, (rows ++ items)%list) db)
  else inl foreign_key_violation.

(** [supabase.from('sales_order_items').insert(items)] *)
Definition insert_sales_order_items (env : Env) (db : Database)
    (items : list ItemRow.t) : DbError + Database :=
  if negb (permits db (auth_uid env) t_sales_order_items INSERT) then inl rls_violation
  else if forallb (item_row_ok db) items
    then inr (set_sales_order_items (λ rows, (rows ++ items)%list) db)
  else inl foreign_key_violation.

(** [supabase.from(t).select(col).eq('id', id).single()]: [data] is the
    column of the row, or null when no row is visible. *)
Definition select_single (env : Env) (db : Database) (t : Table)
    (rows : gmap string Q) (id : string) : option Q :=
  if permits db (auth_uid env) t SELECT then rows !! id else None.

(** [supabase.from(t).update({col: v}).eq('id', id)] on the rows the
    [UPDATE] policy lets the caller see: a caller the policy excludes
    updates no row, and the statement raises no error. *)
Definition update_eq (env : Env) (db : Database) (t : Table)
    (rows : gmap string Q) (id : string) (v : Q) : gmap string Q :=
  if permits db (auth_uid env) t UPDATE then
    match rows !! id with
    | Some _ => <[id := v]> rows
    | None => rows
    end
  else rows.

(** [supabase.from('suppliers').insert([formData])]; [debt_balance] takes
    its default 0. *)
Definition insert_supplier (env : Env) (db : Database) : DbError + Database :=
  if negb (permits db (auth_uid env) t_suppliers INSERT) then inl rls_violation
  else if bool_decide (is_Some (suppliers db !! new_uuid env)) then inl unique_violation
  else inr (set_suppliers (λ rows, <[new_uuid env := 0%Q]> rows) db).

(** ** Handlers *)

(** What a run of [handleSubmit] ended with: one of its [alert]s, or its
    last statements [setShowModal(false); resetForm(); loadOrders()]. *)
Inductive Outcome :=
  | alert_no_items                                (* 'Vui lòng thêm ít nhất một sản phẩm' *)
  | alert_insufficient_stock (name : string)      (* `Không đủ hàng tồn kho cho sản phẩm ${name}` *)
  | alert_order_error (e : DbError)               (* 'Lỗi tạo đơn ...: ' + orderError.message *)
  | alert_items_error (e : DbError)               (* 'Lỗi thêm chi tiết đơn hàng: ' + ... *)
  | alert_supplier_error (e : DbError)            (* 'Lỗi thêm nhà cung cấp: ' + ... *)
  | submitted.

(** The order-number template [`${prefix}${Date.now()}`]. *)
Definition order_number_of (prefix : string) (now : Z) : string :=
  prefix +:+ pretty now.

(** [items.map(item => ({ ..._order_id: orderData.id, product_id, quantity,
    unit_price, total_price: item.quantity * item.unit_price }))] *)
Definition item_rows (order_id : string) (orderItems : list OrderItem.t)
    : list ItemRow.t :=
  map (λ item,
         ItemRow.mk order_id (OrderItem.product_id item)
           (OrderItem.quantity item) (OrderItem.unit_price item)
           (OrderItem.quantity item * OrderItem.unit_price item)%Q)
      orderItems.

(** One turn of the stock loop: read the product's stock, and when the row
    came back ([if (product)]) write the new stock computed from it. *)
Definition adjust_stock (env : Env) (db : Database) (pid : string)
    (new_stock : Q → Q) : Database :=
  match select_single env db t_products (products db) pid with
  | Some stock_quantity =>
      set_products
        (λ rows, update_eq env db t_products rows pid (new_stock stock_quantity)) db
  | None => db
  end.

Module Purchases.

(** [useState({ supplier_id: '', paid_amount: 0, notes: '' })] *)
Record FormData := mkFormData {
  supplier_id : string;
  paid_amount : Q;
  notes : string
}.

Definition calculateTotal (orderItems : list OrderItem.t) : Q :=
  fold_left
    (λ sum item, (sum + OrderItem.quantity item * OrderItem.unit_price item)%Q)
    orderItems 0%Q.

(** [for (const item of orderItems) { ... stock_quantity + item.quantity ... }] *)
Definition adjust_stocks (env : Env) (orderItems : list OrderItem.t)
    (db : Database) : Database :=
  fold_left
    (λ db item,
       adjust_stock env db (OrderItem.product_id item)
         (λ stock_quantity, stock_quantity + OrderItem.quantity item)%Q)
    orderItems db.

(** [if (formData.supplier_id) { ... debt_balance + debtChange ... }] *)
Definition adjust_debt (env : Env) (formData : FormData) (totalAmount : Q)
    (db : Database) : Database :=
  if bool_decide (supplier_id formData = "") then db
  else
    match select_single env db t_suppliers (suppliers db) (supplier_id formData) with
    | Some debt_balance =>
        let debtChange := (totalAmount - paid_amount formData)%Q in
        set_suppliers
          (λ rows, update_eq env db t_suppliers rows (supplier_id formData)
                     (debt_balance + debtChange)%Q) db
    | None => db
    end.

(** The row the handler sends to [purchase_orders]; [id] is the one the
    database generates and [select().single()] returns in [orderData]. *)
Definition order_header (env : Env) (formData : FormData)
    (orderItems : list OrderItem.t) : PurchaseOrder.t :=
  let orderNumber := order_number_of "NH" (date_now env) in
  let totalAmount := calculateTotal orderItems in
  PurchaseOrder.mk (new_uuid env) orderNumber (supplier_id formData)
    totalAmount (paid_amount formData) completed (notes formData)
    (profile_id env).

Definition handleSubmit (env : Env) (formData : FormData)
    (orderItems : list OrderItem.t) (db : Database) : Database * Outcome :=
  if bool_decide (length orderItems = 0%nat) then (db, alert_no_items)
  else
    let totalAmount := calculateTotal orderItems in
    let orderData := order_header env formData orderItems in
    match insert_purchase_order env db orderData with
    | inl orderError => (db, alert_order_error orderError)
    | inr db1 =>
        let items := item_rows (PurchaseOrder.id orderData) orderItems in
        match insert_purchase_order_items env db1 items with
        | inl itemsError => (db1, alert_items_error itemsError)
        | inr db2 =>
            let db3 := adjust_stocks env orderItems db2 in
            (adjust_debt env formData totalAmount db3, submitted)
        end
    end.

End Purchases.

Module Sales.

(** [type Product = { id; name; unit; selling_price; stock_quantity }]:
    an entry of the component's [products] state, filled by
    [loadProducts] when the page mounts. *)
Record Product := mkProduct {
  id : string;
  name : string;
  unit : string;
  selling_price : Q;
  stock_quantity : Q
}.

(** [useState({ customer_id: '', paid_amount: 0, discount: 0, notes: '' })] *)
Record FormData := mkFormData {
  customer_id : string;
  paid_amount : Q;
  discount : Q;
  notes : string
}.

Definition calculateSubtotal (orderItems : list OrderItem.t) : Q :=
  fold_left
    (λ sum item, (sum + OrderItem.quantity item * OrderItem.unit_price item)%Q)
    orderItems 0%Q.

Definition calculateTotal (formData : FormData) (orderItems : list OrderItem.t) : Q :=
  (calculateSubtotal orderItems - discount formData)%Q.

(** [products.find(p => p.id === item.product_id)] *)
Definition find_product (products : list Product) (product_id : string)
    : option Product :=
  find (λ p, bool_decide (id p = product_id)) products.

(** The stock loop before any write: the name of the product of the first
    line that asks for more than the listed stock, if there is one. *)
Fixpoint check_stock (products : list Product) (orderItems : list OrderItem.t)
    : option string :=
  match orderItems with
  | [] => None
  | item :: rest =>
      match find_product products (OrderItem.product_id item) with
      | Some product =>
          if Qltb (stock_quantity product) (OrderItem.quantity item)
          then Some (name product)
          else check_stock products rest
      | None => check_stock products rest
      end
  end.

(** [for (const item of orderItems) { ... stock_quantity - item.quantity ... }] *)
Definition adjust_stocks (env : Env) (orderItems : list OrderItem.t)
    (db : Database) : Database :=
  fold_left
    (λ db item,
       adjust_stock env db (OrderItem.product_id item)
         (λ stock_quantity, stock_quantity - OrderItem.quantity item)%Q)
    orderItems db.

(** [if (formData.customer_id) { ... debt_balance + debtChange ... }] *)
Definition adjust_debt (env : Env) (formData : FormData) (totalAmount : Q)
    (db : Database) : Database :=
  if bool_decide (customer_id formData = "") then db
  else
    match select_single env db t_customers (customers db) (customer_id formData) with
    | Some debt_balance =>
        let debtChange := (totalAmount - paid_amount formData)%Q in
        set_customers
          (λ rows, update_eq env db t_customers rows (customer_id formData)
                     (debt_balance + debtChange)%Q) db
    | None => db
    end.

(** The row the handler sends to [sales_orders];
    [customer_id: formData.customer_id || null]. *)
Definition order_header (env : Env) (formData : FormData)
    (orderItems : list OrderItem.t) : SalesOrder.t :=
  let orderNumber := order_number_of "BH" (date_now env) in
  let totalAmount := calculateTotal formData orderItems in
  SalesOrder.mk (new_uuid env) orderNumber
    (if bool_decide (customer_id formData = "") then None
     else Some (customer_id formData))
    totalAmount (paid_amount formData) (discount formData)
    completed (notes formData) (profile_id env).

(** [products] is the component state: the handler reads it and never
    reloads it. *)
Definition handleSubmit (env : Env) (products : list Product)
    (formData : FormData) (orderItems : list OrderItem.t) (db : Database)
    : Database * Outcome :=
  if bool_decide (length orderItems = 0%nat) then (db, alert_no_items)
  else
    match check_stock products orderItems with
    | Some product_name => (db, alert_insufficient_stock product_name)
    | None =>
        let totalAmount := calculateTotal formData orderItems in
        let orderData := order_header env formData orderItems in
        match insert_sales_order env db orderData with
        | inl orderError => (db, alert_order_error orderError)
        | inr db1 =>
            let items := item_rows (SalesOrder.id orderData) orderItems in
            match insert_sales_order_items env db1 items with
            | inl itemsError => (db1, alert_items_error itemsError)
            | inr db2 =>
                let db3 := adjust_stocks env orderItems db2 in
                (adjust_debt env formData totalAmount db3, submitted)
            end
        end
    end.

End Sales.

Module Suppliers.

(** With a supplier under edit the handler updates its name and contact
    columns, which the model does not hold; otherwise it inserts the form
    as a new supplier. *)
Definition handleSubmit (env : Env) (editingSupplier : option string)
    (db : Database) : Database * Outcome :=
  match editingSupplier with
  | Some _ => (db, submitted)
  | None =>
      match insert_supplier env db with
      | inl error => (db, alert_supplier_error error)
      | inr db1 => (db1, submitted)
      end
  end.

End Suppliers.

(** ** Quantities the specification speaks of *)



(** The caller holds one of the roles the [UPDATE] policies name. *)
Definition is_editor (db : Database) (env : Env) : bool :=
  match auth_uid env with
  | Some uid => eval_policy db uid (p_role_in [admin; manager])
  | None => false
  end.

(** Whether a run stored a header: it did when it ran to the end and when
    it stopped at the insert of the lines. *)
Definition header_stored (o : Outcome) : bool :=
  match o with
  | submitted | alert_items_error _ => true
  | _ => false
  end.

(** ** Concrete data for the examples *)

Module Scenario.

(** An admin and a staff member, products A and B, one supplier and one
    customer who owes 2000. *)
Definition db0 : Database :=
  mkDatabase
    {[ "u-admin" := admin; "u-staff" := staff ]}
    {[ "A" := 0%Q; "B" := 5%Q ]}
    {[ "s1" := 0%Q ]}
    {[ "c1" := 2000%Q ]}
    [] [] [] [].

Definition admin_env : Env :=
  mkEnv (Some "u-admin") (Some "u-admin") 1700000000000 "o1".

Definition staff_env : Env :=
  mkEnv (Some "u-staff") (Some "u-staff") 1700000000000 "o1".


(** What [loadProducts] put in the state of the sales page when it
    mounted on [db0]. *)
Definition listed : list Sales.Product :=
  [ Sales.mkProduct "A" "Product A" "kg" 1000 0;
    Sales.mkProduct "B" "Product B" "kg" 500 5 ].

End Scenario.

(** ** The order form *)


(** The argument pair [(field, value)] of [updateOrderItem], for
    [field: keyof OrderItem]. *)
Inductive FieldValue :=
  | field_product_id (value : string)
  | field_quantity (value : Q)
  | field_unit_price (value : Q).

(** [{ ...item, [field]: value }] *)
Definition assign_field (item : OrderItem.t) (fv : FieldValue) : OrderItem.t :=
  match fv with
  | field_product_id value =>
      OrderItem.mk value (OrderItem.quantity item) (OrderItem.unit_price item)
  | field_quantity value =>
      OrderItem.mk (OrderItem.product_id item) value (OrderItem.unit_price item)
  | field_unit_price value =>
      OrderItem.mk (OrderItem.product_id item) (OrderItem.quantity item) value
  end.



(** [updateOrderItem] of either page, for the price [price_of] its product
    list prefills: the line at [index] takes the new field, and when the
    field is the product and the list has it, its price as unit price. The
    pages call it with the index of a line they render; for an index past
    the end the assignment would leave an object without the other fields,
    which the typed state does not hold, and the result is [None]. *)
Definition update_order_item {P} (find_by_id : string → option P)
    (price_of : P → Q) (index : nat) (fv : FieldValue)
    (orderItems : list OrderItem.t) : option (list OrderItem.t) :=
  match orderItems !! index with
  | None => None
  | Some item =>
      let updated := assign_field item fv in
      let updated :=
        match fv with
        | field_product_id value =>
            match find_by_id value with
            | Some product =>
                OrderItem.mk (OrderItem.product_id updated)
                  (OrderItem.quantity updated) (price_of product)
            | None => updated
            end
        | _ => updated
        end in
      Some (<[index := updated]> orderItems)
  end.

Module PurchasesForm.

(** [type Product = { id; name; unit; cost_price }] of the purchase page. *)
Record Product := mkProduct {
  id : string;
  name : string;
  unit : string;
  cost_price : Q
}.

(** [updated[index].unit_price = product.cost_price] *)
Definition updateOrderItem (products : list Product) :=
  update_order_item (λ value, find (λ p, bool_decide (id p = value)) products)
    cost_price.

End PurchasesForm.

Module SalesForm.

(** [updated[index].unit_price = product.selling_price] *)
Definition updateOrderItem (products : list Sales.Product) :=
  update_order_item (Sales.find_product products) Sales.selling_price.

End SalesForm.


(** ** Roles in order *)


(** ** Reading tables *)

#[global] Instance Status_eq_dec : EqDecision Status.
Proof. solve_decision. Defined.

(** [supabase.from(t).select(...)] without [single()]: the rows the
    [SELECT] policy shows, none without a session. *)
Definition select_rows {A} (env : Env) (db : Database) (t : Table)
    (rows : list A) : list A :=
  if permits db (auth_uid env) t SELECT then rows else [].

(** [rows.reduce((sum, row) => sum + Number(column(row)), 0)] *)
Definition reduce_sum {A} (column : A → Q) (rows : list A) : Q :=
  fold_left (λ sum row, (sum + column row)%Q) rows 0%Q.

(** ** The dashboard *)

Module Dashboard.

(** The constants [loadStats] computes from its query results. The order
    tables are listed in the order of their inserts, which is the order of
    [created_at]. *)





(** [.order('created_at', { ascending: false }).limit(5)] *)
Definition recentSales (env : Env) (db : Database) : list SalesOrder.t :=
  take 5 (reverse (select_rows env db t_sales_orders (sales_orders db))).

Definition recentPurchases (env : Env) (db : Database) : list PurchaseOrder.t :=
  take 5 (reverse (select_rows env db t_purchase_orders (purchase_orders db))).

End Dashboard.

(** ** The debts page *)

Module Debts.

(** [b] does not owe more than [a]: the order of
    [.order('debt_balance', { ascending: false })]. *)
Definition owes_at_least (a b : string * Q) : Prop :=
  Qle_bool (snd b) (snd a) = true.

#[global] Instance owes_at_least_dec a b : Decision (owes_at_least a b).
Proof. unfold owes_at_least. apply _. Defined.

(** One query of [loadDebts], on the table of customers or of suppliers:
    the rows with [debt_balance > 0], the largest debt first. Each row is
    its id and its debt; rows of equal debt come in an order the database
    does not fix. *)
Definition debtors (env : Env) (db : Database) (t : Table)
    (rows : gmap string Q) : list (string * Q) :=
  merge_sort owes_at_least
    (filter (λ row, Qltb 0 (snd row) = true)
       (select_rows env db t (map_to_list rows))).

Definition customers (env : Env) (db : Database) : list (string * Q) :=
  debtors env db t_customers (customers db).

Definition suppliers (env : Env) (db : Database) : list (string * Q) :=
  debtors env db t_suppliers (suppliers db).



End Debts.

(** ** Cash transactions *)

Module CashTransaction.

(** ['income' | 'expense'] *)
Inductive Kind := income | expense.

Record t := mk {
  id : string;
  transaction_type : Kind;
  category : string;
  amount : Q;
  description : string;
  transaction_date : string;
  created_by : option string
}.

End CashTransaction.

#[global] Instance CashTransaction_Kind_eq_dec : EqDecision CashTransaction.Kind.
Proof. solve_decision. Defined.

Module CashFlow.

(** The form of the cash page. *)
Record FormData := mkFormData {
  transaction_type : CashTransaction.Kind;
  category : string;
  amount : Q;
  description : string;
  transaction_date : string
}.



(** [supabase.from('cash_transactions').insert([{ ...formData, created_by:
    profile?.id }])] on the table [rows]. *)
Definition insert_cash_transaction (env : Env) (db : Database)
    (rows : list CashTransaction.t) (row : CashTransaction.t)
    : DbError + list CashTransaction.t :=
  if negb (permits db (auth_uid env) t_cash_transactions INSERT) then inl rls_violation
  else if negb (fk_ok (profiles db) (CashTransaction.created_by row))
    then inl foreign_key_violation
  else if bool_decide (CashTransaction.id row ∈ CashTransaction.id <$> rows)
    then inl unique_violation
  else inr (rows ++ [row])%list.

(** [handleSubmit]: the table it leaves, and the error it alerts, if any. *)
Definition handleSubmit (env : Env) (formData : FormData) (db : Database)
    (rows : list CashTransaction.t) : list CashTransaction.t * option DbError :=
  let row :=
    CashTransaction.mk (new_uuid env) (transaction_type formData)
      (category formData) (amount formData) (description formData)
      (transaction_date formData) (profile_id env) in
  match insert_cash_transaction env db rows row with
  | inl error => (rows, Some error)
  | inr rows' => (rows', None)
  end.

End CashFlow.

(** ** Customers *)

Module Customers.

(** [supabase.from('customers').insert([formData])]; [debt_balance] takes
    its default 0. *)
Definition insert_customer (env : Env) (db : Database) : DbError + Database :=
  if negb (permits db (auth_uid env) t_customers INSERT) then inl rls_violation
  else if bool_decide (is_Some (customers db !! new_uuid env)) then inl unique_violation
  else inr (set_customers (λ rows, <[new_uuid env := 0%Q]> rows) db).

(** [handleSubmit]: with a customer under edit it updates the name and
    contact columns, which the model does not hold; otherwise it inserts
    the form as a new customer. The result is the database it leaves and
    the error it alerts, if any. *)
Definition handleSubmit (env : Env) (editingCustomer : option string)
    (db : Database) : Database * option DbError :=
  match editingCustomer with
  | Some _ => (db, None)
  | None =>
      match insert_customer env db with
      | inl error => (db, Some error)
      | inr db1 => (db1, None)
      end
  end.

(** [customer_id uuid REFERENCES customers(id) ON DELETE SET NULL] *)
Definition set_null (id : string) (order : SalesOrder.t) : SalesOrder.t :=
  if bool_decide (SalesOrder.customer_id order = Some id)
  then SalesOrder.mk (SalesOrder.id order) (SalesOrder.order_number order) None
         (SalesOrder.total_amount order) (SalesOrder.paid_amount order)
         (SalesOrder.discount order) (SalesOrder.status order)
         (SalesOrder.notes order) (SalesOrder.created_by order)
  else order.

(** [supabase.from('customers').delete().eq('id', id)]: the row goes, for
    a caller the [DELETE] policy admits, and the sales orders that
    reference it are set to null; a caller the policy excludes deletes no
    row, and the statement raises no error. *)
Definition delete_customer (env : Env) (db : Database) (id : string) : Database :=
  if permits db (auth_uid env) t_customers DELETE then
    match customers db !! id with
    | Some _ =>
        set_sales_orders (λ rows, set_null id <$> rows)
          (set_customers (λ rows, delete id rows) db)
    | None => db
    end
  else db.

(** [handleDelete], for the answer to its [confirm] dialog. *)
Definition handleDelete (env : Env) (confirmed : bool) (id : string)
    (db : Database) : Database * option DbError :=
  if negb confirmed then (db, None)
  else (delete_customer env db id, None).

End Customers.

(** Every sales order names no customer or a customer that exists: the
    foreign key of [sales_orders.customer_id]. *)
Definition customer_references_ok (db : Database) : Prop :=
  Forall (λ order, fk_ok (customers db) (SalesOrder.customer_id order) = true)
    (sales_orders db).

(** ** Strings of JavaScript *)

(** A JavaScript string is the [string] of its UTF-8 bytes. The separators
    below are ASCII characters, which in UTF-8 occur only as themselves. *)
Module JS.

Definition dquote : ascii := "034"%char.
Definition newline : ascii := "010"%char.
Definition comma : ascii := ","%char.

(** [s.split(sep)] for a separator of one character. *)
Fixpoint split (sep : ascii) (s : string) : list string :=
  match s with
  | EmptyString => [EmptyString]
  | String c rest =>
      if Ascii.eqb c sep then EmptyString :: split sep rest
      else
        match split sep rest with
        | [] => [String c EmptyString]
        | first :: others => String c first :: others
        end
  end.

(** [parts.join(sep)] *)
Fixpoint join (sep : string) (parts : list string) : string :=
  match parts with
  | [] => EmptyString
  | part :: rest =>
      match rest with
      | [] => part
      | _ :: _ => part +:+ sep +:+ join sep rest
      end
  end.

(** [s.replace(/c/g, '')] for one character [c]. *)
Fixpoint remove_char (c : ascii) (s : string) : string :=
  match s with
  | EmptyString => EmptyString
  | String d rest =>
      if Ascii.eqb d c then remove_char c rest else String d (remove_char c rest)
  end.

(** The white space and line terminators of the language, in UTF-8:
    U+0009 to U+000D, U+0020, U+00A0, U+1680, U+2000 to U+200A, U+2028,
    U+2029, U+202F, U+205F, U+3000 and U+FEFF. *)
Definition white_space : list (list ascii) :=
  map (map ascii_of_nat)
    [ [9]; [10]; [11]; [12]; [13]; [32]; [194; 160]; [225; 154; 128];
      [226; 128; 128]; [226; 128; 129]; [226; 128; 130]; [226; 128; 131];
      [226; 128; 132]; [226; 128; 133]; [226; 128; 134]; [226; 128; 135];
      [226; 128; 136]; [226; 128; 137]; [226; 128; 138];
      [226; 128; 168]; [226; 128; 169]; [226; 128; 175];
      [226; 129; 159]; [227; 128; 128]; [239; 187; 191] ]%nat.

(** [l] without the prefix [p], when it has it. *)
Fixpoint strip_prefix (p l : list ascii) : option (list ascii) :=
  match p, l with
  | [], _ => Some l
  | c :: p', d :: l' => if Ascii.eqb c d then strip_prefix p' l' else None
  | _ :: _, [] => None
  end.

Fixpoint strip_first (ps : list (list ascii)) (l : list ascii)
    : option (list ascii) :=
  match ps with
  | [] => None
  | p :: ps' =>
      match strip_prefix p l with
      | Some rest => Some rest
      | None => strip_first ps' l
      end
  end.

(** Strip prefixes out of [ps] for as long as there is one. *)
Fixpoint strip_all (ps : list (list ascii)) (fuel : nat) (l : list ascii)
    : list ascii :=
  match fuel with
  | O => l
  | S fuel' =>
      match strip_first ps l with
      | Some rest => strip_all ps fuel' rest
      | None => l
      end
  end.

Definition trim_start (l : list ascii) : list ascii :=
  strip_all white_space (length l) l.

Definition trim_end (l : list ascii) : list ascii :=
  reverse (strip_all (map reverse white_space) (length l) (reverse l)).

(** [s.trim()] *)
Definition trim (s : string) : string :=
  String.string_of_list_ascii
    (trim_end (trim_start (String.list_ascii_of_string s))).

End JS.

(** ** The product sheet *)

Module ProductSheet.

(** The template that puts [${cell}] between two double quotes. *)
Definition quote (cell : string) : string :=
  String JS.dquote (cell +:+ String JS.dquote EmptyString).

(** The [headers] of [exportToExcel]. *)
Definition headers : list string :=
  [ "Mã SKU"; "Tên sản phẩm"; "Danh mục"; "Đơn vị";
    "Giá vốn"; "Giá bán"; "Tồn kho"; "Mức tối thiểu" ].

(** The [csv] text of [exportToExcel] for the rows of cells it has built,
    each cell the text the template gives it:
    [[headers.join(','), ...rows.map(row =>
    row.map(quote).join(','))].join('\n')]. *)
Definition csv (rows : list (list string)) : string :=
  JS.join (String JS.newline EmptyString)
    (JS.join "," headers
       :: map (λ row, JS.join "," (map quote row)) rows).

(** The [values] of one line in [handleImportExcel]: the line split at
    its commas, each part trimmed and then rid of every double quote. *)
Definition values_of (line : string) : list string :=
  map (λ v, JS.remove_char JS.dquote (JS.trim v)) (JS.split JS.comma line).

(** The [values] of the lines after the first of
    [text.trim().split('\n')]. *)
Definition imported_values (text : string) : list (list string) :=
  map values_of (tail (JS.split JS.newline (JS.trim text))).

End ProductSheet.

(** [s.includes(c)] for one character. *)
Fixpoint includes (c : ascii) (s : string) : bool :=
  match s with
  | EmptyString => false
  | String d rest => Ascii.eqb d c || includes c rest
  end.

(** A cell that comes back from the sheet as it went in: it holds no
    comma, no double quote and no line feed. *)
Definition plain_cell (cell : string) : Prop :=
  includes JS.comma cell = false
  ∧ includes JS.dquote cell = false
  ∧ includes JS.newline cell = false.

(** How often a character occurs in a string. *)
Fixpoint count_char (c : ascii) (s : string) : nat :=
  match s with
  | EmptyString => 0
  | String d rest => (if Ascii.eqb d c then 1 else 0) + count_char c rest
  end.

(** * Properties *)

(** ** Numbers *)

Lemma Qltb_lt (a b : Q) : Qltb a b = true ↔ (a < b)%Q.
Proof.
  unfold Qltb. rewrite negb_true_iff. split.
  - intros H. apply Qnot_le_lt. intros Hle.
    apply Qle_bool_iff in Hle. congruence.
  - intros H. destruct (Qle_bool b a) eqn:E; [|done].
    apply Qle_bool_iff in E. exfalso. by apply (Qlt_not_le a b).
Qed.




(** ** The policy evaluator *)

Lemma permits_update_editor db env t :
  permits db (auth_uid env) t UPDATE = is_editor db env.
Proof. unfold permits, is_editor. by destruct (auth_uid env), t. Qed.

Lemma permits_select db env t :
  permits db (auth_uid env) t SELECT = bool_decide (is_Some (auth_uid env)).
Proof. unfold permits. destruct (auth_uid env); by destruct t. Qed.

Lemma is_editor_authenticated db env :
  is_editor db env = true → is_Some (auth_uid env).
Proof. unfold is_editor. destruct (auth_uid env); [eauto | done]. Qed.

Lemma is_editor_role db env :
  is_editor db env = true ↔
  ∃ uid r, auth_uid env = Some uid ∧ profiles db !! uid = Some r
           ∧ (r = admin ∨ r = manager).
Proof.
  unfold is_editor, eval_policy. split.
  - destruct (auth_uid env) as [uid|]; [|done].
    destruct (profiles db !! uid) as [r|] eqn:E; [|done].
    intros H. exists uid, r. repeat split; try done.
    destruct r; auto. done.
  - intros (uid & r & -> & -> & [-> | ->]); done.
Qed.

Lemma is_editor_profiles db db' env :
  profiles db' = profiles db → is_editor db' env = is_editor db env.
Proof. unfold is_editor, eval_policy. by intros ->. Qed.

(** ** The scenarios of the specification *)

(** A purchase of 10 units of A at 1000, 5000 paid, from a supplier who is
    owed nothing: the total is 10000, the supplier is owed 5000 and the
    stock of A is up by 10. *)
Example scenario_purchase :
  let run :=
    Purchases.handleSubmit Scenario.admin_env (Purchases.mkFormData "s1" 5000 "")
      [OrderItem.mk "A" 10 1000] Scenario.db0 in
  snd run = submitted
  ∧ PurchaseOrder.total_amount <$> purchase_orders (fst run) = [10000%Q]
  ∧ suppliers (fst run) !! "s1" = Some 5000%Q
  ∧ products (fst run) !! "A" = Some 10%Q.
Proof. vm_compute. repeat split; reflexivity. Qed.

(** A sale of 2 units of B at 500 with a discount of 100, 900 paid, to a
    customer who owes 2000, entered by the admin: the total is 900, the
    debt stays 2000 and the stock of B goes from 5 to 3. *)
Example scenario_sale :
  let run :=
    Sales.handleSubmit Scenario.admin_env Scenario.listed
      (Sales.mkFormData "c1" 900 100 "") [OrderItem.mk "B" 2 500] Scenario.db0 in
  snd run = submitted
  ∧ SalesOrder.total_amount <$> sales_orders (fst run) = [900%Q]
  ∧ customers (fst run) !! "c1" = Some 2000%Q
  ∧ products (fst run) !! "B" = Some 3%Q.
Proof. vm_compute. repeat split; reflexivity. Qed.

(** A sale of 6 units of B, of which the list shows 5, is rejected and
    writes nothing. *)
Example scenario_insufficient_stock :
  Sales.handleSubmit Scenario.admin_env Scenario.listed
    (Sales.mkFormData "c1" 0 0 "") [OrderItem.mk "B" 6 500] Scenario.db0
  = (Scenario.db0, alert_insufficient_stock "Product B").
Proof. reflexivity. Qed.

(** ** The stock loop *)

Section StockLoop.
Context (env : Env).

(** A turn of the loop touches the [products] table and nothing else. *)
Lemma adjust_stock_frame db pid new_stock :
  let db' := adjust_stock env db pid new_stock in
  profiles db' = profiles db ∧ suppliers db' = suppliers db
  ∧ customers db' = customers db
  ∧ purchase_orders db' = purchase_orders db
  ∧ purchase_order_items db' = purchase_order_items db
  ∧ sales_orders db' = sales_orders db
  ∧ sales_order_items db' = sales_order_items db.
Proof.
  unfold adjust_stock.
  destruct (select_single env db t_products (products db) pid); simpl; done.
Qed.




(** The loop of either handler, for the way it computes the new stock of
    a line. *)
Variable new_stock_of : OrderItem.t → Q → Q.

Local Abbreviation loop :=
  (fold_left
     (λ db item,
        adjust_stock env db (OrderItem.product_id item) (new_stock_of item))).

Lemma stock_loop_frame orderItems db :
  let db' := loop orderItems db in
  profiles db' = profiles db ∧ suppliers db' = suppliers db
  ∧ customers db' = customers db
  ∧ purchase_orders db' = purchase_orders db
  ∧ purchase_order_items db' = purchase_order_items db
  ∧ sales_orders db' = sales_orders db
  ∧ sales_order_items db' = sales_order_items db.
Proof.
  revert db. induction orderItems as [|item rest IH]; intros db; [done|].
  simpl.
  pose proof (adjust_stock_frame db (OrderItem.product_id item) (new_stock_of item))
    as (? & ? & ? & ? & ? & ? & ?).
  specialize
    (IH (adjust_stock env db (OrderItem.product_id item) (new_stock_of item))).
  simpl in IH. destruct IH as (? & ? & ? & ? & ? & ? & ?).
  repeat split; congruence.
Qed.



End StockLoop.

Lemma purchases_adjust_stocks_frame env orderItems db :
  let db' := Purchases.adjust_stocks env orderItems db in
  profiles db' = profiles db ∧ suppliers db' = suppliers db
  ∧ customers db' = customers db
  ∧ purchase_orders db' = purchase_orders db
  ∧ purchase_order_items db' = purchase_order_items db
  ∧ sales_orders db' = sales_orders db
  ∧ sales_order_items db' = sales_order_items db.
Proof. apply stock_loop_frame. Qed.

Lemma sales_adjust_stocks_frame env orderItems db :
  let db' := Sales.adjust_stocks env orderItems db in
  profiles db' = profiles db ∧ suppliers db' = suppliers db
  ∧ customers db' = customers db
  ∧ purchase_orders db' = purchase_orders db
  ∧ purchase_order_items db' = purchase_order_items db
  ∧ sales_orders db' = sales_orders db
  ∧ sales_order_items db' = sales_order_items db.
Proof. apply stock_loop_frame. Qed.


(** ** What an accepted insert tells *)

Lemma fk_ok_Some {V} (m : gmap string V) k :
  fk_ok m (Some k) = true ↔ is_Some (m !! k).
Proof. unfold fk_ok. apply bool_decide_eq_true. Qed.

Lemma insert_purchase_order_inr env db row db1 :
  insert_purchase_order env db row = inr db1 →
  db1 = set_purchase_orders (λ rows, (rows ++ [row])%list) db
  ∧ permits db (auth_uid env) t_purchase_orders INSERT = true
  ∧ PurchaseOrder.supplier_id row ≠ ""
  ∧ is_Some (suppliers db !! PurchaseOrder.supplier_id row)
  ∧ PurchaseOrder.order_number row
      ∉ PurchaseOrder.order_number <$> purchase_orders db.
Proof.
  unfold insert_purchase_order.
  destruct (permits db (auth_uid env) t_purchase_orders INSERT); cbn [negb]; [|done].
  case_bool_decide as Hsup; [done|].
  destruct (fk_ok (suppliers db) (Some (PurchaseOrder.supplier_id row))) eqn:Hfk;
    cbn [negb]; [|done].
  destruct (fk_ok (profiles db) (PurchaseOrder.created_by row)); cbn [negb]; [|done].
  case_bool_decide as Hnum; [done|].
  case_bool_decide as Hid; [done|].
  intros [= <-]. by rewrite fk_ok_Some in Hfk.
Qed.

Lemma insert_sales_order_inr env db row db1 :
  insert_sales_order env db row = inr db1 →
  db1 = set_sales_orders (λ rows, (rows ++ [row])%list) db
  ∧ fk_ok (customers db) (SalesOrder.customer_id row) = true
  ∧ SalesOrder.order_number row ∉ SalesOrder.order_number <$> sales_orders db.
Proof.
  unfold insert_sales_order.
  destruct (permits db (auth_uid env) t_sales_orders INSERT); cbn [negb]; [|done].
  destruct (fk_ok (customers db) (SalesOrder.customer_id row)) eqn:Hfk; cbn [negb]; [|done].
  destruct (fk_ok (profiles db) (SalesOrder.created_by row)); cbn [negb]; [|done].
  case_bool_decide as Hnum; [done|].
  case_bool_decide as Hid; [done|].
  by intros [= <-].
Qed.

Lemma item_rows_ok db order_id (orderItems : list OrderItem.t) :
  forallb (item_row_ok db) (item_rows order_id orderItems) = true →
  Forall (λ item, is_Some (products db !! OrderItem.product_id item)) orderItems.
Proof.
  unfold item_rows. rewrite forallb_forall. intros H.
  apply Forall_forall. intros item Hin.
  specialize (H _ (in_map _ _ _ (proj1 (list_elem_of_In _ _) Hin))).
  unfold item_row_ok in H. simpl in H.
  apply andb_true_iff in H as [_ H]. by apply fk_ok_Some in H.
Qed.

Lemma insert_purchase_order_items_inr env db items db2 :
  insert_purchase_order_items env db items = inr db2 →
  db2 = set_purchase_order_items (λ rows, (rows ++ items)%list) db
  ∧ forallb (item_row_ok db) items = true.
Proof.
  unfold insert_purchase_order_items.
  destruct (permits db (auth_uid env) t_purchase_order_items INSERT); cbn [negb]; [|done].
  destruct (forallb (item_row_ok db) items); [|done].
  by intros [= <-].
Qed.

Lemma insert_sales_order_items_inr env db items db2 :
  insert_sales_order_items env db items = inr db2 →
  db2 = set_sales_order_items (λ rows, (rows ++ items)%list) db
  ∧ forallb (item_row_ok db) items = true.
Proof.
  unfold insert_sales_order_items.
  destruct (permits db (auth_uid env) t_sales_order_items INSERT); cbn [negb]; [|done].
  destruct (forallb (item_row_ok db) items); [|done].
  by intros [= <-].
Qed.

(** ** The runs of the purchase handler *)

(** The steps behind a purchase that ran to the end: both inserts were
    accepted, so the caller is an admin or a manager, the supplier exists
    and every line references a product. *)
Lemma purchase_submitted env formData orderItems db db' :
  Purchases.handleSubmit env formData orderItems db = (db', submitted) →
  let header := Purchases.order_header env formData orderItems in
  let db2 :=
    set_purchase_order_items
      (λ rows, (rows ++ item_rows (new_uuid env) orderItems)%list)
      (set_purchase_orders (λ rows, (rows ++ [header])%list) db) in
  db' = Purchases.adjust_debt env formData (Purchases.calculateTotal orderItems)
          (Purchases.adjust_stocks env orderItems db2)
  ∧ is_editor db env = true
  ∧ Purchases.supplier_id formData ≠ ""
  ∧ is_Some (suppliers db !! Purchases.supplier_id formData)
  ∧ Forall (λ item, is_Some (products db !! OrderItem.product_id item)) orderItems.
Proof.
  unfold Purchases.handleSubmit.
  case_bool_decide as Hlen; [done|].
  destruct (insert_purchase_order env db _) as [e|db1] eqn:Hhdr; [done|].
  destruct (insert_purchase_order_items env db1 _) as [e|db2] eqn:Hitems; [done|].
  apply insert_purchase_order_inr in Hhdr as (-> & Hperm & Hsup & Hsupp & _).
  apply insert_purchase_order_items_inr in Hitems as (-> & Hok).
  intros [= <-]. simpl. repeat split; try done.
  by apply item_rows_ok in Hok.
Qed.

Lemma purchases_adjust_debt_products env formData totalAmount db :
  products (Purchases.adjust_debt env formData totalAmount db) = products db.
Proof.
  unfold Purchases.adjust_debt. case_bool_decide; [done|].
  by destruct (select_single env db t_suppliers (suppliers db) _).
Qed.

(** The debt step of a purchase, for an admin or a manager and a supplier
    that exists. *)
Lemma purchases_adjust_debt_editor env formData totalAmount db d :
  is_editor db env = true →
  Purchases.supplier_id formData ≠ "" →
  suppliers db !! Purchases.supplier_id formData = Some d →
  suppliers (Purchases.adjust_debt env formData totalAmount db)
    = <[Purchases.supplier_id formData
          := (d + (totalAmount - Purchases.paid_amount formData))%Q]> (suppliers db).
Proof.
  intros Hed Hsel Hd. unfold Purchases.adjust_debt, select_single, update_eq.
  rewrite bool_decide_eq_false_2 by done.
  rewrite permits_select, permits_update_editor, Hed.
  rewrite bool_decide_eq_true_2 by by eapply is_editor_authenticated.
  by rewrite Hd; simpl; rewrite Hd.
Qed.

(** How a settled purchase changes the supplier's debt: by the total of the
    persisted header minus its paid amount. *)
Lemma purchase_settlement_debt env formData orderItems db db' d :
  Purchases.handleSubmit env formData orderItems db = (db', submitted) →
  suppliers db !! Purchases.supplier_id formData = Some d →
  ∃ header,
    purchase_orders db' = (purchase_orders db ++ [header])%list
    ∧ suppliers db' !! Purchases.supplier_id formData
      = Some (d + (PurchaseOrder.total_amount header
                   - PurchaseOrder.paid_amount header))%Q.
Proof.
  intros Hrun Hd. apply purchase_submitted in Hrun as (-> & Hed & Hsel & _ & _).
  exists (Purchases.order_header env formData orderItems).
  set (db2 := set_purchase_order_items _ _).
  pose proof (purchases_adjust_stocks_frame env orderItems db2)
    as (Hprof & Hsupp & _ & Hpo & _).
  split.
  - unfold Purchases.adjust_debt. case_bool_decide; [done|].
    by destruct (select_single _ _ _ _ _); simpl; rewrite Hpo.
  - rewrite (purchases_adjust_debt_editor _ _ _ _ d).
    + by rewrite lookup_insert_eq.
    + rewrite <- Hed. by apply is_editor_profiles.
    + done.
    + by rewrite Hsupp.
Qed.



(** ** The runs of the sales handler *)

(** The steps behind a sale that ran to the end. *)
Lemma sale_submitted env listed formData orderItems db db' :
  Sales.handleSubmit env listed formData orderItems db = (db', submitted) →
  let header := Sales.order_header env formData orderItems in
  let db2 :=
    set_sales_order_items
      (λ rows, (rows ++ item_rows (new_uuid env) orderItems)%list)
      (set_sales_orders (λ rows, (rows ++ [header])%list) db) in
  db' = Sales.adjust_debt env formData (Sales.calculateTotal formData orderItems)
          (Sales.adjust_stocks env orderItems db2)
  ∧ Sales.check_stock listed orderItems = None
  ∧ fk_ok (customers db) (SalesOrder.customer_id header) = true
  ∧ Forall (λ item, is_Some (products db !! OrderItem.product_id item)) orderItems.
Proof.
  unfold Sales.handleSubmit.
  case_bool_decide as Hlen; [done|].
  destruct (Sales.check_stock listed orderItems) eqn:Hcheck; [done|].
  destruct (insert_sales_order env db _) as [e|db1] eqn:Hhdr; [done|].
  destruct (insert_sales_order_items env db1 _) as [e|db2] eqn:Hitems; [done|].
  apply insert_sales_order_inr in Hhdr as (-> & Hfk & _).
  apply insert_sales_order_items_inr in Hitems as (-> & Hok).
  intros [= <-]. cbv zeta. repeat split; try done.
  by apply item_rows_ok in Hok.
Qed.

Lemma sales_adjust_debt_products env formData totalAmount db :
  products (Sales.adjust_debt env formData totalAmount db) = products db.
Proof.
  unfold Sales.adjust_debt. case_bool_decide; [done|].
  by destruct (select_single env db t_customers (customers db) _).
Qed.

Lemma sales_adjust_debt_orders env formData totalAmount db :
  let db' := Sales.adjust_debt env formData totalAmount db in
  sales_orders db' = sales_orders db
  ∧ sales_order_items db' = sales_order_items db.
Proof.
  unfold Sales.adjust_debt. case_bool_decide; [done|].
  by destruct (select_single env db t_customers (customers db) _).
Qed.



Lemma sales_adjust_debt_editor env formData totalAmount db d :
  is_editor db env = true →
  Sales.customer_id formData ≠ "" →
  customers db !! Sales.customer_id formData = Some d →
  customers (Sales.adjust_debt env formData totalAmount db)
    = <[Sales.customer_id formData
          := (d + (totalAmount - Sales.paid_amount formData))%Q]> (customers db).
Proof.
  intros Hed Hsel Hd. unfold Sales.adjust_debt, select_single, update_eq.
  rewrite bool_decide_eq_false_2 by done.
  rewrite permits_select, permits_update_editor, Hed.
  rewrite bool_decide_eq_true_2 by by eapply is_editor_authenticated.
  by rewrite Hd; simpl; rewrite Hd.
Qed.




(** How a sale settled by an admin or a manager changes the debt of the
    selected customer. *)
Lemma sale_settlement_debt env listed formData orderItems db db' d :
  Sales.handleSubmit env listed formData orderItems db = (db', submitted) →
  is_editor db env = true →
  Sales.customer_id formData ≠ "" →
  customers db !! Sales.customer_id formData = Some d →
  ∃ header,
    sales_orders db' = (sales_orders db ++ [header])%list
    ∧ customers db' !! Sales.customer_id formData
      = Some (d + (SalesOrder.total_amount header
                   - SalesOrder.paid_amount header))%Q.
Proof.
  intros Hrun Hed Hsel Hd. apply sale_submitted in Hrun as (-> & _).
  exists (Sales.order_header env formData orderItems).
  set (db2 := set_sales_order_items _ _).
  pose proof (sales_adjust_stocks_frame env orderItems db2)
    as (Hprof & _ & Hcust & _ & _ & Hso & _).
  split.
  - destruct (sales_adjust_debt_orders env formData
                (Sales.calculateTotal formData orderItems)
                (Sales.adjust_stocks env orderItems db2)) as [-> _].
    by rewrite Hso.
  - rewrite (sales_adjust_debt_editor _ _ _ _ d).
    + by rewrite lookup_insert_eq.
    + rewrite <- Hed. by apply is_editor_profiles.
    + done.
    + by rewrite Hcust.
Qed.

(** A line that asks for more than the listed stock of its product trips
    the check before the first write. *)
Lemma check_stock_rejects listed (orderItems : list OrderItem.t) item product :
  item ∈ orderItems →
  Sales.find_product listed (OrderItem.product_id item) = Some product →
  (Sales.stock_quantity product < OrderItem.quantity item)%Q →
  is_Some (Sales.check_stock listed orderItems).
Proof.
  intros Hin Hfind Hlt.
  induction orderItems as [|item0 rest IH]; [by apply elem_of_nil in Hin|].
  simpl. apply elem_of_cons in Hin as [<- | Hin].
  - rewrite Hfind. apply Qltb_lt in Hlt. rewrite Hlt. eauto.
  - destruct (Sales.find_product listed (OrderItem.product_id item0)) as [p0|];
      [|by apply IH].
    destruct (Qltb _ _); [eauto | by apply IH].
Qed.

(** C1. The code at the failing input: a staff member sells two units of B
    at 500 to customer c1, who owes 2000, and collects nothing. The header
    is stored with total 1000 and paid 0, the handler runs to its end, and
    the customer still owes 2000, because the [UPDATE] policy of
    [customers] names admin and manager only and the handler does not look
    at the result of its update. The same order entered by the admin
    leaves the customer owing 3000. *)
Theorem staff_sale_leaves_customer_debt :
  let formData := Sales.mkFormData "c1" 0 0 "" in
  let orderItems := [OrderItem.mk "B" 2 500] in
  let staff_run :=
    Sales.handleSubmit Scenario.staff_env Scenario.listed formData orderItems
      Scenario.db0 in
  let admin_run :=
    Sales.handleSubmit Scenario.admin_env Scenario.listed formData orderItems
      Scenario.db0 in
  snd staff_run = submitted
  ∧ (λ o, (SalesOrder.customer_id o, SalesOrder.total_amount o,
           SalesOrder.paid_amount o)) <$> sales_orders (fst staff_run)
    = [(Some "c1", 1000%Q, 0%Q)]
  ∧ customers Scenario.db0 !! "c1" = Some 2000%Q
  ∧ customers (fst staff_run) !! "c1" = Some 2000%Q
  ∧ snd admin_run = submitted
  ∧ customers (fst admin_run) !! "c1" = Some 3000%Q.
Proof. vm_compute. repeat split; reflexivity. Qed.




(** ** The persisted header *)

Lemma purchases_adjust_debt_orders env formData totalAmount db :
  let db' := Purchases.adjust_debt env formData totalAmount db in
  purchase_orders db' = purchase_orders db
  ∧ purchase_order_items db' = purchase_order_items db.
Proof.
  unfold Purchases.adjust_debt. case_bool_decide; [done|].
  by destruct (select_single env db t_suppliers (suppliers db) _).
Qed.

Lemma purchase_header_stored env formData orderItems db db' o :
  Purchases.handleSubmit env formData orderItems db = (db', o) →
  header_stored o = true →
  purchase_orders db'
    = (purchase_orders db ++ [Purchases.order_header env formData orderItems])%list.
Proof.
  unfold Purchases.handleSubmit.
  case_bool_decide as Hlen; [by intros [= <- <-]|].
  destruct (insert_purchase_order env db _) as [e|db1] eqn:Hhdr;
    [by intros [= <- <-]|].
  apply insert_purchase_order_inr in Hhdr as (-> & _).
  destruct (insert_purchase_order_items env _ _) as [e|db2] eqn:Hitems;
    intros [= <- <-] _; [done|].
  apply insert_purchase_order_items_inr in Hitems as (-> & _).
  set (db2 := set_purchase_order_items _ _).
  destruct (purchases_adjust_debt_orders env formData
              (Purchases.calculateTotal orderItems)
              (Purchases.adjust_stocks env orderItems db2)) as [-> _].
  by destruct (purchases_adjust_stocks_frame env orderItems db2)
    as (_ & _ & _ & -> & _).
Qed.

Lemma sale_header_stored env listed formData orderItems db db' o :
  Sales.handleSubmit env listed formData orderItems db = (db', o) →
  header_stored o = true →
  sales_orders db'
    = (sales_orders db ++ [Sales.order_header env formData orderItems])%list.
Proof.
  unfold Sales.handleSubmit.
  case_bool_decide as Hlen; [by intros [= <- <-]|].
  destruct (Sales.check_stock listed orderItems); [by intros [= <- <-]|].
  destruct (insert_sales_order env db _) as [e|db1] eqn:Hhdr;
    [by intros [= <- <-]|].
  apply insert_sales_order_inr in Hhdr as (-> & _).
  destruct (insert_sales_order_items env _ _) as [e|db2] eqn:Hitems;
    intros [= <- <-] _; [done|].
  apply insert_sales_order_items_inr in Hitems as (-> & _).
  set (db2 := set_sales_order_items _ _).
  destruct (sales_adjust_debt_orders env formData
              (Sales.calculateTotal formData orderItems)
              (Sales.adjust_stocks env orderItems db2)) as [-> _].
  by destruct (sales_adjust_stocks_frame env orderItems db2)
    as (_ & _ & _ & _ & _ & -> & _).
Qed.



(** ** Failures and rejections *)

(** C5. When the database refuses the header, the handler raises the
    order alert and stops: the database is the one it started from, so no
    line is inserted and no stock and no debt has changed. The insert is
    reached when the draft has a line and, for a sale, passes the stock
    check. *)
Theorem header_failure_stops_settlement env orderItems db e :
  orderItems ≠ [] →
  (∀ formData,
     insert_purchase_order env db (Purchases.order_header env formData orderItems)
       = inl e →
     Purchases.handleSubmit env formData orderItems db = (db, alert_order_error e))
  ∧ (∀ listed formData,
       Sales.check_stock listed orderItems = None →
       insert_sales_order env db (Sales.order_header env formData orderItems)
         = inl e →
       Sales.handleSubmit env listed formData orderItems db
         = (db, alert_order_error e)).
Proof.
  intros Hne.
  assert (Hlen : length orderItems ≠ 0%nat).
  { intros H. by apply nil_length_inv in H. }
  split.
  - intros formData Hhdr. unfold Purchases.handleSubmit.
    rewrite bool_decide_eq_false_2 by done. by rewrite Hhdr.
  - intros listed formData Hcheck Hhdr. unfold Sales.handleSubmit.
    rewrite bool_decide_eq_false_2 by done. by rewrite Hcheck, Hhdr.
Qed.

(** A staff member may not insert into [purchase_orders]; a sale entered
    in the millisecond of an earlier one asks for its order number and is
    refused. *)
Lemma header_failure_stops_settlement_witness :
  let db1 :=
    fst (Sales.handleSubmit Scenario.admin_env Scenario.listed
           (Sales.mkFormData "" 0 0 "") [OrderItem.mk "B" 1 500] Scenario.db0) in
  Purchases.handleSubmit Scenario.staff_env (Purchases.mkFormData "s1" 0 "")
    [OrderItem.mk "A" 10 1000] Scenario.db0
    = (Scenario.db0, alert_order_error rls_violation)
  ∧ Sales.handleSubmit Scenario.admin_env Scenario.listed
      (Sales.mkFormData "" 0 0 "") [OrderItem.mk "B" 2 500] db1
    = (db1, alert_order_error unique_violation).
Proof.
  split.
  - apply (header_failure_stops_settlement Scenario.staff_env
             [OrderItem.mk "A" 10 1000] Scenario.db0 rls_violation);
      [discriminate | reflexivity].
  - apply (header_failure_stops_settlement Scenario.admin_env
             [OrderItem.mk "B" 2 500]);
      [discriminate | reflexivity | vm_compute; reflexivity].
Defined.

(** C6, as stated, fails. The purchase handler settles an order whose only
    line has quantity 0, and one whose line has quantity -3, which takes
    three units off the stock. A line whose product is not in the catalog
    is not rejected either: the header is written first and stays when the
    database refuses the line. *)
Lemma composition_counterexample :
  let formData := Purchases.mkFormData "s1" 0 "" in
  let zero_run :=
    Purchases.handleSubmit Scenario.admin_env formData
      [OrderItem.mk "B" 0 1000] Scenario.db0 in
  let negative_run :=
    Purchases.handleSubmit Scenario.admin_env formData
      [OrderItem.mk "B" (-3) 1000] Scenario.db0 in
  let unknown_run :=
    Purchases.handleSubmit Scenario.admin_env formData
      [OrderItem.mk "Z" 1 1000] Scenario.db0 in
  (snd zero_run = submitted
   ∧ length (purchase_orders (fst zero_run)) = 1%nat
   ∧ ItemRow.quantity <$> purchase_order_items (fst zero_run) = [0%Q])
  ∧ (snd negative_run = submitted
     ∧ products (fst negative_run) !! "B" = Some 2%Q)
  ∧ (products Scenario.db0 !! "Z" = None
     ∧ snd unknown_run = alert_items_error foreign_key_violation
     ∧ length (purchase_orders (fst unknown_run)) = 1%nat).
Proof. vm_compute. repeat split; reflexivity. Qed.

(** C6, amended. Order composition is rejected, with the alert that asks
    for at least one product and no write, whenever the line list is
    empty. *)
Theorem empty_draft_rejected env db :
  (∀ formData,
     Purchases.handleSubmit env formData [] db = (db, alert_no_items))
  ∧ (∀ listed formData,
       Sales.handleSubmit env listed formData [] db = (db, alert_no_items)).
Proof. split; reflexivity. Qed.

(** ** The policy matrix *)

(** C7. For a caller with a profile, an insert into [suppliers] or
    [purchase_orders] is permitted exactly for the roles admin and manager,
    and an insert into [customers] or [sales_orders] for every role; a
    staff member who submits the supplier form gets the refusal of the
    database and the tables stay as they were. *)
Theorem insert_policy_matrix db uid r :
  profiles db !! uid = Some r →
  let editor := match r with admin | manager => true | staff => false end in
  permits db (Some uid) t_suppliers INSERT = editor
  ∧ permits db (Some uid) t_purchase_orders INSERT = editor
  ∧ permits db (Some uid) t_customers INSERT = true
  ∧ permits db (Some uid) t_sales_orders INSERT = true
  ∧ (r = staff →
     ∀ env, auth_uid env = Some uid →
       Suppliers.handleSubmit env None db
         = (db, alert_supplier_error rls_violation)).
Proof.
  intros Hr. simpl. unfold eval_policy. rewrite Hr.
  repeat split; try by destruct r.
  intros -> env Hauth. unfold Suppliers.handleSubmit, insert_supplier.
  rewrite Hauth. simpl. unfold eval_policy. by rewrite Hr.
Qed.

Lemma insert_policy_matrix_witness :
  permits Scenario.db0 (Some "u-staff") t_suppliers INSERT = false
  ∧ permits Scenario.db0 (Some "u-staff") t_sales_orders INSERT = true
  ∧ permits Scenario.db0 (Some "u-admin") t_suppliers INSERT = true
  ∧ Suppliers.handleSubmit Scenario.staff_env None Scenario.db0
    = (Scenario.db0, alert_supplier_error rls_violation).
Proof.
  destruct (insert_policy_matrix Scenario.db0 "u-staff" staff eq_refl)
    as (Hs & _ & _ & Hso & Hsubmit).
  destruct (insert_policy_matrix Scenario.db0 "u-admin" admin eq_refl)
    as (Ha & _).
  split; [exact Hs|]. split; [exact Hso|]. split; [exact Ha|].
  exact (Hsubmit eq_refl Scenario.staff_env eq_refl).
Defined.

(** ** The discount *)






(** ** Order numbers *)

Lemma purchase_orders_after env formData orderItems db db' o :
  Purchases.handleSubmit env formData orderItems db = (db', o) →
  let header := Purchases.order_header env formData orderItems in
  (header_stored o = false ∧ db' = db)
  ∨ (header_stored o = true
     ∧ purchase_orders db' = (purchase_orders db ++ [header])%list
     ∧ PurchaseOrder.order_number header
         ∉ PurchaseOrder.order_number <$> purchase_orders db).
Proof.
  intros Hrun. pose proof Hrun as Hrun'. revert Hrun'.
  unfold Purchases.handleSubmit.
  case_bool_decide as Hlen; [intros [= <- <-]; by left|].
  destruct (insert_purchase_order env db _) as [e|db1] eqn:Hhdr;
    [intros [= <- <-]; by left|].
  apply insert_purchase_order_inr in Hhdr as (-> & _ & _ & _ & Hfresh).
  intros Ho. right.
  assert (Hstored : header_stored o = true).
  { destruct (insert_purchase_order_items env _ _); by injection Ho as _ <-. }
  repeat split; try done. by eapply purchase_header_stored.
Qed.

Lemma sales_orders_after env listed formData orderItems db db' o :
  Sales.handleSubmit env listed formData orderItems db = (db', o) →
  let header := Sales.order_header env formData orderItems in
  (header_stored o = false ∧ db' = db)
  ∨ (header_stored o = true
     ∧ sales_orders db' = (sales_orders db ++ [header])%list
     ∧ SalesOrder.order_number header
         ∉ SalesOrder.order_number <$> sales_orders db).
Proof.
  intros Hrun. pose proof Hrun as Hrun'. revert Hrun'.
  unfold Sales.handleSubmit.
  case_bool_decide as Hlen; [intros [= <- <-]; by left|].
  destruct (Sales.check_stock listed orderItems); [intros [= <- <-]; by left|].
  destruct (insert_sales_order env db _) as [e|db1] eqn:Hhdr;
    [intros [= <- <-]; by left|].
  apply insert_sales_order_inr in Hhdr as (-> & _ & Hfresh).
  intros Ho. right.
  assert (Hstored : header_stored o = true).
  { destruct (insert_sales_order_items env _ _); by injection Ho as _ <-. }
  repeat split; try done. by eapply sale_header_stored.
Qed.

Lemma NoDup_snoc_fresh (l : list string) (x : string) :
  NoDup l → x ∉ l → NoDup (l ++ [x]).
Proof.
  intros Hl Hx. apply NoDup_app. repeat split; try done.
  - intros y Hy ->%list_elem_of_singleton. done.
  - apply NoDup_singleton.
Qed.

(** C9, as stated, fails on the prefix. The purchase the admin enters at
    [Date.now() = 1700000000000] is stored under NH1700000000000 and the
    sale under BH1700000000000; neither number starts with PO or SO. *)
Lemma order_number_counterexample :
  let purchase_run :=
    Purchases.handleSubmit Scenario.admin_env (Purchases.mkFormData "s1" 0 "")
      [OrderItem.mk "A" 10 1000] Scenario.db0 in
  let sale_run :=
    Sales.handleSubmit Scenario.admin_env Scenario.listed
      (Sales.mkFormData "" 0 0 "") [OrderItem.mk "B" 1 500] Scenario.db0 in
  PurchaseOrder.order_number <$> purchase_orders (fst purchase_run)
    = ["NH1700000000000"]
  ∧ SalesOrder.order_number <$> sales_orders (fst sale_run)
    = ["BH1700000000000"]
  ∧ (∀ digits, "NH1700000000000" ≠ "PO" +:+ digits)
  ∧ (∀ digits, "BH1700000000000" ≠ "SO" +:+ digits).
Proof.
  split; [by vm_compute|]. split; [by vm_compute|].
  split; intros digits; simpl; discriminate.
Qed.

(** C9, amended. Every order number a handler stores is the prefix NH, for
    a purchase, or BH, for a sale, followed by the decimal digits of
    [Date.now()]; a handler keeps the numbers of its table pairwise
    distinct, two numbers of one kind are equal only for equal values of
    [Date.now()], and a purchase number is never a sales number. *)
Theorem order_numbers env orderItems db :
  (∀ formData db' o,
     Purchases.handleSubmit env formData orderItems db = (db', o) →
     (header_stored o = true →
      PurchaseOrder.order_number <$> purchase_orders db'
        = ((PurchaseOrder.order_number <$> purchase_orders db)
             ++ ["NH" +:+ pretty (date_now env)])%list)
     ∧ (NoDup (PurchaseOrder.order_number <$> purchase_orders db) →
        NoDup (PurchaseOrder.order_number <$> purchase_orders db')))
  ∧ (∀ listed formData db' o,
       Sales.handleSubmit env listed formData orderItems db = (db', o) →
       (header_stored o = true →
        SalesOrder.order_number <$> sales_orders db'
          = ((SalesOrder.order_number <$> sales_orders db)
               ++ ["BH" +:+ pretty (date_now env)])%list)
       ∧ (NoDup (SalesOrder.order_number <$> sales_orders db) →
          NoDup (SalesOrder.order_number <$> sales_orders db')))
  ∧ (∀ prefix now now',
       order_number_of prefix now = order_number_of prefix now' → now = now')
  ∧ (∀ now now', order_number_of "NH" now ≠ order_number_of "BH" now').
Proof.
  split; [|split; [|split]].
  - intros formData db' o Hrun.
    destruct (purchase_orders_after _ _ _ _ _ _ Hrun)
      as [[Ho ->] | (Ho & Hrows & Hfresh)].
    + split; [by rewrite Ho | done].
    + rewrite Hrows, fmap_app. split; [done|].
      intros Hnodup. by apply NoDup_snoc_fresh.
  - intros listed formData db' o Hrun.
    destruct (sales_orders_after _ _ _ _ _ _ _ Hrun)
      as [[Ho ->] | (Ho & Hrows & Hfresh)].
    + split; [by rewrite Ho | done].
    + rewrite Hrows, fmap_app. split; [done|].
      intros Hnodup. by apply NoDup_snoc_fresh.
  - intros prefix now now'. unfold order_number_of.
    induction prefix as [|c prefix IH]; simpl.
    + apply pretty_Z_inj.
    + intros [= H]. by apply IH.
  - intros now now'. unfold order_number_of. simpl. discriminate.
Qed.

Lemma order_numbers_witness :
  PurchaseOrder.order_number
    <$> purchase_orders
          (fst (Purchases.handleSubmit Scenario.admin_env
                  (Purchases.mkFormData "s1" 0 "") [OrderItem.mk "B" 1 500]
                  Scenario.db0))
    = ["NH1700000000000"]
  ∧ SalesOrder.order_number
      <$> sales_orders
            (fst (Sales.handleSubmit Scenario.admin_env Scenario.listed
                    (Sales.mkFormData "" 0 0 "") [OrderItem.mk "B" 1 500]
                    Scenario.db0))
    = ["BH1700000000000"].
Proof.
  destruct (order_numbers Scenario.admin_env [OrderItem.mk "B" 1 500] Scenario.db0)
    as (Hpurchase & Hsale & _).
  split.
  - destruct (Hpurchase (Purchases.mkFormData "s1" 0 "") _ _ eq_refl) as [H _].
    exact (H eq_refl).
  - destruct (Hsale Scenario.listed (Sales.mkFormData "" 0 0 "") _ _ eq_refl)
      as [H _].
    exact (H eq_refl).
Defined.

(** ** Walk-in sales *)


(** C10. The code at the failing input: a staff member sells two units of
    B to a walk-in customer. The handler runs to its end, the header with
    a null customer and the line are stored, and no debt changes; but the
    stock of B stays at 5, because the [UPDATE] policy of [products] names
    admin and manager only and the handler does not look at the result of
    its update. The same sale entered by the admin leaves 3. *)
Theorem staff_walk_in_sale_keeps_stock :
  let formData := Sales.mkFormData "" 1000 0 "" in
  let orderItems := [OrderItem.mk "B" 2 500] in
  let staff_run :=
    Sales.handleSubmit Scenario.staff_env Scenario.listed formData orderItems
      Scenario.db0 in
  let admin_run :=
    Sales.handleSubmit Scenario.admin_env Scenario.listed formData orderItems
      Scenario.db0 in
  snd staff_run = submitted
  ∧ SalesOrder.customer_id <$> sales_orders (fst staff_run) = [None]
  ∧ (λ r, (ItemRow.product_id r, ItemRow.quantity r))
      <$> sales_order_items (fst staff_run) = [("B", 2%Q)]
  ∧ customers (fst staff_run) = customers Scenario.db0
  ∧ products Scenario.db0 !! "B" = Some 5%Q
  ∧ products (fst staff_run) !! "B" = Some 5%Q
  ∧ snd admin_run = submitted
  ∧ products (fst admin_run) !! "B" = Some 3%Q.
Proof. vm_compute. repeat split; reflexivity. Qed.

(** * Further properties of the code *)

(** ** The order form *)








Lemma update_order_item_spec {P} (find_by_id : string → option P) price_of
    index fv (orderItems : list OrderItem.t) item :
  orderItems !! index = Some item →
  ∃ updated,
    update_order_item find_by_id price_of index fv orderItems
      = Some (<[index := updated]> orderItems)
    ∧ updated
      = match fv with
        | field_product_id value =>
            OrderItem.mk value (OrderItem.quantity item)
              (match find_by_id value with
               | Some product => price_of product
               | None => OrderItem.unit_price item
               end)
        | field_quantity value =>
            OrderItem.mk (OrderItem.product_id item) value (OrderItem.unit_price item)
        | field_unit_price value =>
            OrderItem.mk (OrderItem.product_id item) (OrderItem.quantity item) value
        end.
Proof.
  intros Hitem. unfold update_order_item. rewrite Hitem.
  eexists. split; [done|].
  destruct fv as [value|value|value]; simpl; [|done..].
  by destruct (find_by_id value).
Qed.

(** X3. Choosing a product the page lists for a line of the draft sets
    the line's product and prefills its unit price, with the cost price on
    the purchase page and the selling price on the sales page; the
    quantity of the line, the other lines and the number of lines stay. A
    product the list does not have leaves the unit price as it was. *)
Theorem choose_product_prefills_price index value (orderItems : list OrderItem.t)
    item :
  orderItems !! index = Some item →
  (∀ products,
     ∃ orderItems',
       SalesForm.updateOrderItem products index (field_product_id value) orderItems
         = Some orderItems'
       ∧ length orderItems' = length orderItems
       ∧ (∀ j, j ≠ index → orderItems' !! j = orderItems !! j)
       ∧ orderItems' !! index
         = Some (OrderItem.mk value (OrderItem.quantity item)
                   (match Sales.find_product products value with
                    | Some product => Sales.selling_price product
                    | None => OrderItem.unit_price item
                    end)))
  ∧ (∀ products,
       ∃ orderItems',
         PurchasesForm.updateOrderItem products index (field_product_id value)
           orderItems = Some orderItems'
         ∧ length orderItems' = length orderItems
         ∧ (∀ j, j ≠ index → orderItems' !! j = orderItems !! j)
         ∧ orderItems' !! index
           = Some (OrderItem.mk value (OrderItem.quantity item)
                     (match find (λ p, bool_decide (PurchasesForm.id p = value))
                              products with
                      | Some product => PurchasesForm.cost_price product
                      | None => OrderItem.unit_price item
                      end))).
Proof.
  intros Hitem.
  assert (Hlt : (index < length orderItems)%nat) by by eapply lookup_lt_Some.
  split; intros products.
  - destruct (update_order_item_spec (Sales.find_product products)
                Sales.selling_price index (field_product_id value) _ _ Hitem)
      as (updated & Hrun & ->).
    eexists. split; [exact Hrun|]. split; [by rewrite length_insert|].
    split; [intros j Hj; by rewrite list_lookup_insert_ne|].
    by rewrite list_lookup_insert_eq.
  - destruct (update_order_item_spec
                (λ value, find (λ p, bool_decide (PurchasesForm.id p = value))
                            products)
                PurchasesForm.cost_price index (field_product_id value) _ _ Hitem)
      as (updated & Hrun & ->).
    eexists. split; [exact Hrun|]. split; [by rewrite length_insert|].
    split; [intros j Hj; by rewrite list_lookup_insert_ne|].
    by rewrite list_lookup_insert_eq.
Qed.

Lemma choose_product_prefills_price_witness :
  ∃ orderItems',
    SalesForm.updateOrderItem Scenario.listed 1 (field_product_id "B")
      [OrderItem.mk "A" 1 1000; OrderItem.mk "" 3 0] = Some orderItems'
    ∧ orderItems' !! 1%nat = Some (OrderItem.mk "B" 3 500).
Proof.
  destruct (choose_product_prefills_price 1 "B"
              [OrderItem.mk "A" 1 1000; OrderItem.mk "" 3 0]
              (OrderItem.mk "" 3 0) eq_refl) as [Hsales _].
  destruct (Hsales Scenario.listed) as (orderItems' & Hrun & _ & _ & Hline).
  exists orderItems'. split; [exact Hrun | exact Hline].
Defined.



(** ** What the order handlers leave alone *)

Lemma update_eq_other env db t (rows : gmap string Q) id v k :
  k ≠ id → update_eq env db t rows id v !! k = rows !! k.
Proof.
  intros Hk. unfold update_eq.
  destruct (permits db (auth_uid env) t UPDATE); [|done].
  destruct (rows !! id); [|done]. by rewrite lookup_insert_ne.
Qed.

Lemma update_eq_dom env db t (rows : gmap string Q) id v :
  dom (update_eq env db t rows id v) = dom rows.
Proof.
  unfold update_eq.
  destruct (permits db (auth_uid env) t UPDATE); [|done].
  destruct (rows !! id) as [v0|] eqn:E; [|done].
  by apply dom_insert_lookup_L.
Qed.

Lemma adjust_stock_other env db pid new_stock k :
  k ≠ pid → products (adjust_stock env db pid new_stock) !! k = products db !! k.
Proof.
  intros Hk. unfold adjust_stock.
  destruct (select_single env db t_products (products db) pid); [|done].
  simpl. by apply update_eq_other.
Qed.

Lemma adjust_stock_dom env db pid new_stock :
  dom (products (adjust_stock env db pid new_stock)) = dom (products db).
Proof.
  unfold adjust_stock.
  destruct (select_single env db t_products (products db) pid); [|done].
  simpl. apply update_eq_dom.
Qed.

Section StockLoopFrame.
Context (env : Env) (new_stock_of : OrderItem.t → Q → Q).

Local Abbreviation loop :=
  (fold_left
     (λ db item,
        adjust_stock env db (OrderItem.product_id item) (new_stock_of item))).

Lemma stock_loop_other orderItems db k :
  Forall (λ item, OrderItem.product_id item ≠ k) orderItems →
  products (loop orderItems db) !! k = products db !! k.
Proof.
  intros Hall. revert db.
  induction Hall as [|item rest Hitem Hrest IH]; intros db; [done|].
  simpl. rewrite IH. by apply adjust_stock_other.
Qed.

Lemma stock_loop_dom orderItems db :
  dom (products (loop orderItems db)) = dom (products db).
Proof.
  revert db. induction orderItems as [|item rest IH]; intros db; [done|].
  simpl. rewrite IH. apply adjust_stock_dom.
Qed.

End StockLoopFrame.

(** The debt step of a purchase changes the [suppliers] table only, and
    there at most the row of the selected supplier. *)
Lemma purchases_adjust_debt_frame env formData totalAmount db :
  let db' := Purchases.adjust_debt env formData totalAmount db in
  profiles db' = profiles db ∧ products db' = products db
  ∧ customers db' = customers db
  ∧ purchase_orders db' = purchase_orders db
  ∧ purchase_order_items db' = purchase_order_items db
  ∧ sales_orders db' = sales_orders db
  ∧ sales_order_items db' = sales_order_items db
  ∧ dom (suppliers db') = dom (suppliers db)
  ∧ ∀ k, k ≠ Purchases.supplier_id formData →
         suppliers db' !! k = suppliers db !! k.
Proof.
  unfold Purchases.adjust_debt. case_bool_decide; [done|].
  destruct (select_single env db t_suppliers (suppliers db) _); [|done].
  simpl. repeat split; try done.
  - apply update_eq_dom.
  - intros k Hk. by apply update_eq_other.
Qed.

Lemma sales_adjust_debt_frame env formData totalAmount db :
  let db' := Sales.adjust_debt env formData totalAmount db in
  profiles db' = profiles db ∧ products db' = products db
  ∧ suppliers db' = suppliers db
  ∧ purchase_orders db' = purchase_orders db
  ∧ purchase_order_items db' = purchase_order_items db
  ∧ sales_orders db' = sales_orders db
  ∧ sales_order_items db' = sales_order_items db
  ∧ dom (customers db') = dom (customers db)
  ∧ ∀ k, k ≠ Sales.customer_id formData →
         customers db' !! k = customers db !! k.
Proof.
  unfold Sales.adjust_debt. case_bool_decide; [done|].
  destruct (select_single env db t_customers (customers db) _); [|done].
  simpl. repeat split; try done.
  - apply update_eq_dom.
  - intros k Hk. by apply update_eq_other.
Qed.

(** The three ways a purchase ends: nothing written; the header written
    and the lines refused; everything written. *)
Lemma purchase_run_cases env formData orderItems db :
  let run := Purchases.handleSubmit env formData orderItems db in
  let header := Purchases.order_header env formData orderItems in
  let db1 := set_purchase_orders (λ rows, (rows ++ [header])%list) db in
  let db2 :=
    set_purchase_order_items
      (λ rows, (rows ++ item_rows (new_uuid env) orderItems)%list) db1 in
  (fst run = db ∧ header_stored (snd run) = false)
  ∨ (fst run = db1
     ∧ ∃ e, snd run = alert_items_error e
            ∧ insert_purchase_order_items env db1
                (item_rows (new_uuid env) orderItems) = inl e)
  ∨ run = (Purchases.adjust_debt env formData
             (Purchases.calculateTotal orderItems)
             (Purchases.adjust_stocks env orderItems db2), submitted).
Proof.
  cbv zeta. unfold Purchases.handleSubmit.
  case_bool_decide; [by left|].
  destruct (insert_purchase_order env db _) as [e|db1] eqn:Hhdr; [by left|].
  apply insert_purchase_order_inr in Hhdr as (-> & _).
  destruct (insert_purchase_order_items env _ _) as [e|db2] eqn:Hitems.
  - right. left. split; [done|]. by exists e.
  - apply insert_purchase_order_items_inr in Hitems as (-> & _). by right; right.
Qed.

Lemma sale_run_cases env listed formData orderItems db :
  let run := Sales.handleSubmit env listed formData orderItems db in
  let header := Sales.order_header env formData orderItems in
  let db1 := set_sales_orders (λ rows, (rows ++ [header])%list) db in
  let db2 :=
    set_sales_order_items
      (λ rows, (rows ++ item_rows (new_uuid env) orderItems)%list) db1 in
  (fst run = db ∧ header_stored (snd run) = false)
  ∨ (fst run = db1
     ∧ ∃ e, snd run = alert_items_error e
            ∧ insert_sales_order_items env db1
                (item_rows (new_uuid env) orderItems) = inl e)
  ∨ run = (Sales.adjust_debt env formData
             (Sales.calculateTotal formData orderItems)
             (Sales.adjust_stocks env orderItems db2), submitted).
Proof.
  cbv zeta. unfold Sales.handleSubmit.
  case_bool_decide; [by left|].
  destruct (Sales.check_stock listed orderItems); [by left|].
  destruct (insert_sales_order env db _) as [e|db1] eqn:Hhdr; [by left|].
  apply insert_sales_order_inr in Hhdr as (-> & _).
  destruct (insert_sales_order_items env _ _) as [e|db2] eqn:Hitems.
  - right. left. split; [done|]. by exists e.
  - apply insert_sales_order_items_inr in Hitems as (-> & _). by right; right.
Qed.

(** X5. A purchase, however it ends, leaves the profiles, the customers,
    the sales orders and the sales lines as they were; a sale, however it
    ends, leaves the profiles, the suppliers, the purchase orders and the
    purchase lines as they were. *)
Theorem order_handlers_keep_to_their_tables env orderItems db :
  (∀ formData,
     let db' := fst (Purchases.handleSubmit env formData orderItems db) in
     profiles db' = profiles db ∧ customers db' = customers db
     ∧ sales_orders db' = sales_orders db
     ∧ sales_order_items db' = sales_order_items db)
  ∧ (∀ listed formData,
       let db' := fst (Sales.handleSubmit env listed formData orderItems db) in
       profiles db' = profiles db ∧ suppliers db' = suppliers db
       ∧ purchase_orders db' = purchase_orders db
       ∧ purchase_order_items db' = purchase_order_items db).
Proof.
  split.
  - intros formData.
    destruct (purchase_run_cases env formData orderItems db)
      as [[-> _] | [[-> _] | ->]]; [done..|].
    simpl. set (db2 := set_purchase_order_items _ _).
    pose proof (purchases_adjust_stocks_frame env orderItems db2)
      as (Hp & _ & Hc & _ & _ & Hso & Hsoi).
    pose proof (purchases_adjust_debt_frame env formData
                  (Purchases.calculateTotal orderItems)
                  (Purchases.adjust_stocks env orderItems db2))
      as (Hp' & _ & Hc' & _ & _ & Hso' & Hsoi' & _).
    cbv zeta in *. by rewrite Hp', Hc', Hso', Hsoi', Hp, Hc, Hso, Hsoi.
  - intros listed formData.
    destruct (sale_run_cases env listed formData orderItems db)
      as [[-> _] | [[-> _] | ->]]; [done..|].
    simpl. set (db2 := set_sales_order_items _ _).
    pose proof (sales_adjust_stocks_frame env orderItems db2)
      as (Hp & Hs & _ & Hpo & Hpoi & _).
    pose proof (sales_adjust_debt_frame env formData
                  (Sales.calculateTotal formData orderItems)
                  (Sales.adjust_stocks env orderItems db2))
      as (Hp' & _ & Hs' & Hpo' & Hpoi' & _).
    cbv zeta in *. by rewrite Hp', Hs', Hpo', Hpoi', Hp, Hs, Hpo, Hpoi.
Qed.

(** X6. Neither order handler adds or removes a product, and however a
    run ends, the stock of a product that no line of the draft references
    is what it was. *)
Theorem unreferenced_stock_unchanged env orderItems db pid :
  Forall (λ item, OrderItem.product_id item ≠ pid) orderItems →
  (∀ formData,
     let db' := fst (Purchases.handleSubmit env formData orderItems db) in
     dom (products db') = dom (products db)
     ∧ products db' !! pid = products db !! pid)
  ∧ (∀ listed formData,
       let db' := fst (Sales.handleSubmit env listed formData orderItems db) in
       dom (products db') = dom (products db)
       ∧ products db' !! pid = products db !! pid).
Proof.
  intros Hall. split.
  - intros formData.
    destruct (purchase_run_cases env formData orderItems db)
      as [[-> _] | [[-> _] | ->]]; [done..|].
    simpl. rewrite purchases_adjust_debt_products. unfold Purchases.adjust_stocks.
    by rewrite stock_loop_dom, stock_loop_other.
  - intros listed formData.
    destruct (sale_run_cases env listed formData orderItems db)
      as [[-> _] | [[-> _] | ->]]; [done..|].
    simpl. rewrite sales_adjust_debt_products. unfold Sales.adjust_stocks.
    by rewrite stock_loop_dom, stock_loop_other.
Qed.

Lemma unreferenced_stock_unchanged_witness :
  products
    (fst (Sales.handleSubmit Scenario.admin_env Scenario.listed
            (Sales.mkFormData "c1" 0 0 "") [OrderItem.mk "B" 2 500] Scenario.db0))
    !! "A" = Some 0%Q.
Proof.
  destruct (unreferenced_stock_unchanged Scenario.admin_env
              [OrderItem.mk "B" 2 500] Scenario.db0 "A") as [_ Hsale].
  - repeat constructor. discriminate.
  - destruct (Hsale Scenario.listed (Sales.mkFormData "c1" 0 0 "")) as [_ Hstock].
    rewrite Hstock. reflexivity.
Defined.

(** X7. Neither order handler adds or removes a supplier or a customer,
    and however a run ends, the debt of every supplier but the one the
    purchase form selects, and of every customer but the one the sales
    form selects, is what it was. *)
Theorem other_debts_unchanged env orderItems db :
  (∀ formData,
     let db' := fst (Purchases.handleSubmit env formData orderItems db) in
     dom (suppliers db') = dom (suppliers db)
     ∧ ∀ k, k ≠ Purchases.supplier_id formData →
            suppliers db' !! k = suppliers db !! k)
  ∧ (∀ listed formData,
       let db' := fst (Sales.handleSubmit env listed formData orderItems db) in
       dom (customers db') = dom (customers db)
       ∧ ∀ k, k ≠ Sales.customer_id formData →
              customers db' !! k = customers db !! k).
Proof.
  split.
  - intros formData.
    destruct (purchase_run_cases env formData orderItems db)
      as [[-> _] | [[-> _] | ->]]; [done..|].
    simpl. set (db2 := set_purchase_order_items _ _).
    pose proof (purchases_adjust_stocks_frame env orderItems db2)
      as (_ & Hs & _).
    pose proof (purchases_adjust_debt_frame env formData
                  (Purchases.calculateTotal orderItems)
                  (Purchases.adjust_stocks env orderItems db2))
      as (_ & _ & _ & _ & _ & _ & _ & Hdom & Hother).
    cbv zeta in *. rewrite Hdom, Hs. split; [done|].
    intros k Hk. by rewrite Hother, Hs.
  - intros listed formData.
    destruct (sale_run_cases env listed formData orderItems db)
      as [[-> _] | [[-> _] | ->]]; [done..|].
    simpl. set (db2 := set_sales_order_items _ _).
    pose proof (sales_adjust_stocks_frame env orderItems db2)
      as (_ & _ & Hc & _).
    pose proof (sales_adjust_debt_frame env formData
                  (Sales.calculateTotal formData orderItems)
                  (Sales.adjust_stocks env orderItems db2))
      as (_ & _ & _ & _ & _ & _ & _ & Hdom & Hother).
    cbv zeta in *. rewrite Hdom, Hc. split; [done|].
    intros k Hk. by rewrite Hother, Hc.
Qed.

(** X8. The order tables only grow: however a run of a handler ends, the
    headers and the lines stored before it are still there, unchanged and
    in place, at the front of their tables. *)
Theorem order_tables_only_grow env orderItems db :
  (∀ formData,
     let db' := fst (Purchases.handleSubmit env formData orderItems db) in
     purchase_orders db `prefix_of` purchase_orders db'
     ∧ purchase_order_items db `prefix_of` purchase_order_items db')
  ∧ (∀ listed formData,
       let db' := fst (Sales.handleSubmit env listed formData orderItems db) in
       sales_orders db `prefix_of` sales_orders db'
       ∧ sales_order_items db `prefix_of` sales_order_items db').
Proof.
  split.
  - intros formData.
    destruct (purchase_run_cases env formData orderItems db)
      as [[-> _] | [[-> _] | ->]]; [done | split; [by eexists | done] |].
    simpl. set (db2 := set_purchase_order_items _ _).
    pose proof (purchases_adjust_stocks_frame env orderItems db2)
      as (_ & _ & _ & Hpo & Hpoi & _).
    pose proof (purchases_adjust_debt_orders env formData
                  (Purchases.calculateTotal orderItems)
                  (Purchases.adjust_stocks env orderItems db2)) as [Hpo' Hpoi'].
    cbv zeta in *. rewrite Hpo', Hpoi', Hpo, Hpoi. split; by eexists.
  - intros listed formData.
    destruct (sale_run_cases env listed formData orderItems db)
      as [[-> _] | [[-> _] | ->]]; [done | split; [by eexists | done] |].
    simpl. set (db2 := set_sales_order_items _ _).
    pose proof (sales_adjust_stocks_frame env orderItems db2)
      as (_ & _ & _ & _ & _ & Hso & Hsoi).
    pose proof (sales_adjust_debt_orders env formData
                  (Sales.calculateTotal formData orderItems)
                  (Sales.adjust_stocks env orderItems db2)) as [Hso' Hsoi'].
    cbv zeta in *. rewrite Hso', Hsoi', Hso, Hsoi. split; by eexists.
Qed.

Lemma item_rows_missing_product db order_id (orderItems : list OrderItem.t) item :
  item ∈ orderItems → products db !! OrderItem.product_id item = None →
  forallb (item_row_ok db) (item_rows order_id orderItems) = false.
Proof.
  intros Hin Hnone.
  destruct (forallb (item_row_ok db) (item_rows order_id orderItems)) eqn:E; [|done].
  apply item_rows_ok in E. rewrite Forall_forall in E.
  destruct (E _ Hin) as [s Hs]. congruence.
Qed.

(** X9. A draft with a line whose product is not in the catalog is never
    settled and never moves a stock, a debt or a line: the handler either
    writes nothing, or it writes the header, is refused the lines, raises
    the alert for the lines and leaves the header behind without them. *)
Theorem unknown_product_leaves_orphan_header env orderItems db item :
  item ∈ orderItems →
  products db !! OrderItem.product_id item = None →
  (∀ formData,
     let run := Purchases.handleSubmit env formData orderItems db in
     fst run = db
     ∨ ((∃ e, snd run = alert_items_error e)
        ∧ fst run
          = set_purchase_orders
              (λ rows,
                 (rows ++ [Purchases.order_header env formData orderItems])%list)
              db))
  ∧ (∀ listed formData,
       let run := Sales.handleSubmit env listed formData orderItems db in
       fst run = db
       ∨ ((∃ e, snd run = alert_items_error e)
          ∧ fst run
            = set_sales_orders
                (λ rows,
                   (rows ++ [Sales.order_header env formData orderItems])%list)
                db)).
Proof.
  intros Hin Hnone. split.
  - intros formData. cbv zeta.
    destruct (purchase_run_cases env formData orderItems db)
      as [[-> _] | [[-> (e & -> & _)] | Hrun]]; [by left | right; eauto |].
    exfalso. apply purchase_submitted in Hrun as (_ & _ & _ & _ & Hall).
    rewrite Forall_forall in Hall. destruct (Hall _ Hin) as [s Hs]. congruence.
  - intros listed formData. cbv zeta.
    destruct (sale_run_cases env listed formData orderItems db)
      as [[-> _] | [[-> (e & -> & _)] | Hrun]]; [by left | right; eauto |].
    exfalso. apply sale_submitted in Hrun as (_ & _ & _ & Hall).
    rewrite Forall_forall in Hall. destruct (Hall _ Hin) as [s Hs]. congruence.
Qed.

Lemma unknown_product_leaves_orphan_header_witness :
  let run :=
    Purchases.handleSubmit Scenario.admin_env (Purchases.mkFormData "s1" 0 "")
      [OrderItem.mk "A" 1 1000; OrderItem.mk "Z" 1 1000] Scenario.db0 in
  snd run = alert_items_error foreign_key_violation
  ∧ length (purchase_orders (fst run)) = 1%nat
  ∧ purchase_order_items (fst run) = []
  ∧ products (fst run) = products Scenario.db0.
Proof.
  destruct (unknown_product_leaves_orphan_header Scenario.admin_env
              [OrderItem.mk "A" 1 1000; OrderItem.mk "Z" 1 1000] Scenario.db0
              (OrderItem.mk "Z" 1 1000)) as [Hpurchase _].
  - apply list_elem_of_further, list_elem_of_here.
  - reflexivity.
  - destruct (Hpurchase (Purchases.mkFormData "s1" 0 ""))
      as [Hsame | [_ Hheader]].
    + exfalso. apply (f_equal (λ d, length (purchase_orders d))) in Hsame.
      vm_compute in Hsame. discriminate.
    + cbv zeta. rewrite Hheader. repeat split.
Defined.

(** ** Headers and their lines *)





(** ** The stock check *)

(** X11. The stock check of the sales page passes exactly when every
    line, taken on its own, asks for no more than the stock the page's
    list shows for its product; a line whose product the list does not
    have is not checked, and lines of one product are not added up. *)
Theorem check_stock_passes_iff listed (orderItems : list OrderItem.t) :
  Sales.check_stock listed orderItems = None ↔
  ∀ item product,
    item ∈ orderItems →
    Sales.find_product listed (OrderItem.product_id item) = Some product →
    (OrderItem.quantity item <= Sales.stock_quantity product)%Q.
Proof.
  split.
  - intros Hpass item product Hin Hfind.
    apply Qnot_lt_le. intros Hlt.
    destruct (check_stock_rejects listed orderItems item product Hin Hfind Hlt)
      as [name Hname]. congruence.
  - intros Hall. induction orderItems as [|item rest IH]; [done|].
    simpl.
    assert (Hrest : Sales.check_stock listed rest = None).
    { apply IH. intros item' product' Hin. apply Hall. by right. }
    destruct (Sales.find_product listed (OrderItem.product_id item))
      as [product|] eqn:Hfind; [|done].
    destruct (Qltb (Sales.stock_quantity product) (OrderItem.quantity item))
      eqn:Hlt; [|done].
    apply Qltb_lt in Hlt. exfalso.
    apply (Qlt_not_le _ _ Hlt). apply (Hall item product); [by left | done].
Qed.

(** ** The whole policy matrix *)






(** ** Sums *)

Lemma reduce_sum_from {A} (column : A → Q) (rows : list A) (a : Q) :
  (fold_left (λ sum row, sum + column row) rows a
   == a + reduce_sum column rows)%Q.
Proof.
  unfold reduce_sum. revert a.
  induction rows as [|row rest IH] using rev_ind; intros a; simpl; [ring|].
  rewrite !fold_left_app. simpl. rewrite IH. ring.
Qed.


Lemma reduce_sum_cons {A} (column : A → Q) row (rows : list A) :
  (reduce_sum column (row :: rows) == column row + reduce_sum column rows)%Q.
Proof. unfold reduce_sum at 1. simpl. rewrite reduce_sum_from. ring. Qed.






Lemma select_rows_profiles {A} env db db' t (rows : list A) :
  profiles db' = profiles db →
  select_rows env db' t rows = select_rows env db t rows.
Proof.
  intros Hp. unfold select_rows, permits, eval_policy. by rewrite Hp.
Qed.

Lemma select_rows_authenticated {A} env db t (rows : list A) :
  is_Some (auth_uid env) → select_rows env db t rows = rows.
Proof.
  intros [uid Huid]. unfold select_rows, permits. rewrite Huid. by destruct t.
Qed.

Lemma select_rows_anonymous {A} env db t (rows : list A) :
  auth_uid env = None → select_rows env db t rows = [].
Proof. intros Hnone. unfold select_rows, permits. by rewrite Hnone. Qed.

(** A run that stored a header was made with a session. *)
Lemma sale_header_authenticated env listed formData orderItems db :
  header_stored (snd (Sales.handleSubmit env listed formData orderItems db)) = true →
  is_Some (auth_uid env).
Proof.
  unfold Sales.handleSubmit. case_bool_decide; [done|].
  destruct (Sales.check_stock listed orderItems); [done|].
  unfold insert_sales_order at 1, permits.
  destruct (auth_uid env); [eauto | done].
Qed.

Lemma purchase_header_authenticated env formData orderItems db :
  header_stored (snd (Purchases.handleSubmit env formData orderItems db)) = true →
  is_Some (auth_uid env).
Proof.
  unfold Purchases.handleSubmit. case_bool_decide; [done|].
  unfold insert_purchase_order at 1, permits.
  destruct (auth_uid env); [eauto | done].
Qed.

(** ** The dashboard after an order *)




(** ** The debts page *)



Lemma reduce_sum_nonneg {A} (column : A → Q) (rows : list A) :
  Forall (λ row, (0 <= column row)%Q) rows → (0 <= reduce_sum column rows)%Q.
Proof.
  induction 1 as [|row rest Hrow _ IH]; [done|].
  rewrite reduce_sum_cons. lra.
Qed.




(** ** The cash page *)





(** ** Customers and the orders that name them *)

Lemma fk_ok_subseteq {V} (m m' : gmap string V) ref :
  dom m ⊆ dom m' → fk_ok m ref = true → fk_ok m' ref = true.
Proof.
  destruct ref as [k|]; [|done]. rewrite !fk_ok_Some, <- !elem_of_dom.
  intros Hsub Hk. by apply Hsub.
Qed.

Lemma customer_references_grow db db' :
  dom (customers db) ⊆ dom (customers db') →
  sales_orders db' = sales_orders db →
  customer_references_ok db → customer_references_ok db'.
Proof.
  unfold customer_references_ok. intros Hdom -> Hok.
  eapply Forall_impl; [exact Hok|]. intros order. by apply fk_ok_subseteq.
Qed.

(** A sales header that was stored names no customer or one that exists. *)
Lemma sale_header_reference env listed formData orderItems db :
  header_stored (snd (Sales.handleSubmit env listed formData orderItems db)) = true →
  fk_ok (customers db)
    (SalesOrder.customer_id (Sales.order_header env formData orderItems)) = true.
Proof.
  unfold Sales.handleSubmit. case_bool_decide; [done|].
  destruct (Sales.check_stock listed orderItems); [done|].
  destruct (insert_sales_order env db _) as [e|db1] eqn:Hhdr; [done|].
  by apply insert_sales_order_inr in Hhdr as (_ & Hfk & _).
Qed.

Lemma sale_run_customers_dom env listed formData orderItems db :
  dom (customers (fst (Sales.handleSubmit env listed formData orderItems db)))
    = dom (customers db).
Proof.
  destruct (sale_run_cases env listed formData orderItems db)
    as [[-> _] | [[-> _] | ->]]; [done..|].
  simpl. set (db2 := set_sales_order_items _ _).
  pose proof (sales_adjust_stocks_frame env orderItems db2) as (_ & _ & Hc & _).
  pose proof (sales_adjust_debt_frame env formData
                (Sales.calculateTotal formData orderItems)
                (Sales.adjust_stocks env orderItems db2))
    as (_ & _ & _ & _ & _ & _ & _ & Hdom & _).
  cbv zeta in *. by rewrite Hdom, Hc.
Qed.

Lemma purchase_run_sales_side env formData orderItems db :
  let db' := fst (Purchases.handleSubmit env formData orderItems db) in
  customers db' = customers db ∧ sales_orders db' = sales_orders db.
Proof.
  destruct (purchase_run_cases env formData orderItems db)
    as [[-> _] | [[-> _] | ->]]; [done..|].
  simpl. set (db2 := set_purchase_order_items _ _).
  pose proof (purchases_adjust_stocks_frame env orderItems db2)
    as (_ & _ & Hc & _ & _ & Hso & _).
  pose proof (purchases_adjust_debt_frame env formData
                (Purchases.calculateTotal orderItems)
                (Purchases.adjust_stocks env orderItems db2))
    as (_ & _ & Hc' & _ & _ & Hso' & _).
  cbv zeta in *. by rewrite Hc', Hso', Hc, Hso.
Qed.

Lemma delete_customer_references env db id :
  customer_references_ok db →
  customer_references_ok (Customers.delete_customer env db id).
Proof.
  intros Hok. unfold Customers.delete_customer.
  destruct (permits db (auth_uid env) t_customers DELETE); [|done].
  destruct (customers db !! id) as [d|] eqn:Hid; [|done].
  unfold customer_references_ok in *. simpl.
  apply Forall_fmap. eapply Forall_impl; [exact Hok|].
  intros order Hfk. simpl in *. unfold Customers.set_null.
  case_bool_decide as Href; [done|].
  destruct (SalesOrder.customer_id order) as [k|] eqn:Hk; [|done].
  try rewrite Hk in Hfk. apply fk_ok_Some. apply fk_ok_Some in Hfk.
  rewrite lookup_delete_ne; [done | congruence].
Qed.

(** X19. The foreign key of the sales orders is kept by every handler:
    when every stored sales order names no customer or a customer that
    exists, this is still so after a run of the sales handler, of the
    purchase handler, of the customer form and of the customer delete,
    however the run ends. *)
Theorem customer_references_kept env db :
  customer_references_ok db →
  (∀ listed formData orderItems,
     customer_references_ok
       (fst (Sales.handleSubmit env listed formData orderItems db)))
  ∧ (∀ formData orderItems,
       customer_references_ok
         (fst (Purchases.handleSubmit env formData orderItems db)))
  ∧ (∀ editingCustomer,
       customer_references_ok (fst (Customers.handleSubmit env editingCustomer db)))
  ∧ (∀ confirmed id,
       customer_references_ok (fst (Customers.handleDelete env confirmed id db))).
Proof.
  intros Hok. split; [|split; [|split]].
  - intros listed formData orderItems.
    pose proof (sale_run_customers_dom env listed formData orderItems db) as Hdom.
    pose proof (sale_header_reference env listed formData orderItems db) as Hfk.
    destruct (Sales.handleSubmit env listed formData orderItems db)
      as [db' o] eqn:Hrun. simpl in *.
    destruct (sales_orders_after _ _ _ _ _ _ _ Hrun)
      as [[Ho ->] | (Ho & Hrows & _)]; [done|].
    unfold customer_references_ok. rewrite Hrows. apply Forall_app. split.
    + eapply Forall_impl; [exact Hok|]. intros order.
      apply fk_ok_subseteq. by rewrite Hdom.
    + apply Forall_singleton. eapply fk_ok_subseteq; [|by apply Hfk].
      by rewrite Hdom.
  - intros formData orderItems.
    destruct (purchase_run_sales_side env formData orderItems db) as [Hc Hso].
    eapply customer_references_grow; [|exact Hso|exact Hok]. by rewrite Hc.
  - intros editingCustomer. unfold Customers.handleSubmit.
    destruct editingCustomer; [done|].
    unfold Customers.insert_customer.
    destruct (negb (permits db (auth_uid env) t_customers INSERT)); [done|].
    case_bool_decide; [done|]. simpl.
    apply (customer_references_grow db); [|done|exact Hok].
    simpl. rewrite dom_insert_L. apply union_subseteq_r.
  - intros confirmed id. unfold Customers.handleDelete.
    destruct confirmed; [|done]. simpl. by apply delete_customer_references.
Qed.

Lemma customer_references_kept_witness :
  customer_references_ok
    (fst (Customers.handleDelete Scenario.admin_env true "c1"
            (fst (Sales.handleSubmit Scenario.admin_env Scenario.listed
                    (Sales.mkFormData "c1" 0 0 "") [OrderItem.mk "B" 2 500]
                    Scenario.db0)))).
Proof.
  assert (H0 : customer_references_ok Scenario.db0) by constructor.
  destruct (customer_references_kept Scenario.admin_env Scenario.db0 H0)
    as [Hsale _].
  specialize (Hsale Scenario.listed (Sales.mkFormData "c1" 0 0 "")
                [OrderItem.mk "B" 2 500]).
  destruct (customer_references_kept Scenario.admin_env _ Hsale)
    as (_ & _ & _ & Hdelete).
  apply Hdelete.
Defined.




(** ** The most recent orders *)

(** X21. The dashboard shows at most five recent sales and at most five
    recent purchases; a header a handler stores is the first of them
    right after the run, ahead of the orders shown before, and a run that
    stores no header leaves them as they were. *)
Theorem recent_orders_show_newest_first env orderItems db :
  (∀ listed formData,
     let run := Sales.handleSubmit env listed formData orderItems db in
     (length (Dashboard.recentSales env (fst run)) ≤ 5)%nat
     ∧ Dashboard.recentSales env (fst run)
       = if header_stored (snd run)
         then Sales.order_header env formData orderItems
              :: take 4 (Dashboard.recentSales env db)
         else Dashboard.recentSales env db)
  ∧ (∀ formData,
       let run := Purchases.handleSubmit env formData orderItems db in
       (length (Dashboard.recentPurchases env (fst run)) ≤ 5)%nat
       ∧ Dashboard.recentPurchases env (fst run)
         = if header_stored (snd run)
           then Purchases.order_header env formData orderItems
                :: take 4 (Dashboard.recentPurchases env db)
           else Dashboard.recentPurchases env db).
Proof.
  split.
  - intros listed formData. cbv zeta.
    split; [unfold Dashboard.recentSales; rewrite length_take; lia|].
    pose proof (sale_header_authenticated env listed formData orderItems db)
      as Hauth.
    destruct (Sales.handleSubmit env listed formData orderItems db)
      as [db' o] eqn:Hrun. simpl in *.
    destruct (sales_orders_after _ _ _ _ _ _ _ Hrun)
      as [[Ho ->] | (Ho & Hrows & _)]; rewrite Ho; [done|].
    unfold Dashboard.recentSales.
    rewrite !select_rows_authenticated by auto.
    rewrite Hrows, reverse_app. simpl. f_equal.
    by rewrite take_take.
  - intros formData. cbv zeta.
    split; [unfold Dashboard.recentPurchases; rewrite length_take; lia|].
    pose proof (purchase_header_authenticated env formData orderItems db)
      as Hauth.
    destruct (Purchases.handleSubmit env formData orderItems db)
      as [db' o] eqn:Hrun. simpl in *.
    destruct (purchase_orders_after _ _ _ _ _ _ Hrun)
      as [[Ho ->] | (Ho & Hrows & _)]; rewrite Ho; [done|].
    unfold Dashboard.recentPurchases.
    rewrite !select_rows_authenticated by auto.
    rewrite Hrows, reverse_app. simpl. f_equal.
    by rewrite take_take.
Qed.

(** ** The product sheet *)

Lemma includes_app c (a b : string) :
  includes c (a +:+ b) = includes c a || includes c b.
Proof.
  induction a as [|d a IH]; simpl; [done|]. by rewrite IH, orb_assoc.
Qed.

Lemma split_without sep (s : string) :
  includes sep s = false → JS.split sep s = [s].
Proof.
  induction s as [|c s IH]; simpl; [done|].
  intros [Hc Hs]%orb_false_iff. by rewrite Hc, IH.
Qed.

Lemma split_at_first sep (s rest : string) :
  includes sep s = false →
  JS.split sep (s +:+ String sep rest) = s :: JS.split sep rest.
Proof.
  induction s as [|c s IH]; simpl.
  - intros _. by rewrite Ascii.eqb_refl.
  - intros [Hc Hs]%orb_false_iff. by rewrite Hc, IH.
Qed.

(** Splitting what was joined gives the parts back, when there is a part
    and no part holds the separator. *)
Lemma split_join sep (parts : list string) :
  parts ≠ [] → Forall (λ part, includes sep part = false) parts →
  JS.split sep (JS.join (String sep EmptyString) parts) = parts.
Proof.
  intros Hne Hall. induction Hall as [|part rest Hpart Hrest IH]; [done|].
  destruct rest as [|part' rest]; simpl.
  - by apply split_without.
  - change (part +:+ String sep EmptyString +:+ ?j)
      with (part +:+ String sep j).
    rewrite split_at_first by done. f_equal. by apply IH.
Qed.

Lemma join_without c sep (parts : list string) :
  includes c sep = false → Forall (λ part, includes c part = false) parts →
  includes c (JS.join sep parts) = false.
Proof.
  intros Hsep Hall. induction Hall as [|part rest Hpart Hrest IH]; [done|].
  destruct rest as [|part' rest]; [done|].
  change (JS.join sep (part :: part' :: rest))
    with (part +:+ sep +:+ JS.join sep (part' :: rest)).
  by rewrite !includes_app, Hpart, Hsep, IH.
Qed.

Lemma quote_without c cell :
  c ≠ JS.dquote → includes c cell = false →
  includes c (ProductSheet.quote cell) = false.
Proof.
  intros Hc Hcell. unfold ProductSheet.quote. cbn [includes].
  assert (Hq : Ascii.eqb JS.dquote c = false)
    by (apply Ascii.eqb_neq; congruence).
  rewrite includes_app, Hcell, Hq. cbn [includes]. by rewrite Hq.
Qed.

Lemma remove_char_app c (a b : string) :
  JS.remove_char c (a +:+ b) = JS.remove_char c a +:+ JS.remove_char c b.
Proof.
  induction a as [|d a IH]; simpl; [done|].
  destruct (Ascii.eqb d c); simpl; by rewrite IH.
Qed.

Lemma remove_char_without c (s : string) :
  includes c s = false → JS.remove_char c s = s.
Proof.
  induction s as [|d s IH]; simpl; [done|].
  intros [Hd Hs]%orb_false_iff. by rewrite Hd, IH.
Qed.

Lemma unquote cell :
  includes JS.dquote cell = false →
  JS.remove_char JS.dquote (ProductSheet.quote cell) = cell.
Proof.
  intros Hcell. unfold ProductSheet.quote. cbn [JS.remove_char].
  rewrite remove_char_app, remove_char_without by done.
  cbn [JS.remove_char]. rewrite Ascii.eqb_refl.
  clear Hcell. induction cell as [|c cell IH]; [done|].
  change (String c (cell +:+ EmptyString) = String c cell). by rewrite IH.
Qed.

Lemma list_ascii_of_string_app (a b : string) :
  String.list_ascii_of_string (a +:+ b)
  = (String.list_ascii_of_string a ++ String.list_ascii_of_string b)%list.
Proof. induction a as [|c a IH]; simpl; [done|]. by rewrite IH. Qed.

(** Trimming leaves a string whose first and last characters start,
    respectively end, no white space. *)
Lemma trim_fixed (s rest before : string) (c d : ascii) :
  s = String c rest → s = before +:+ String d EmptyString →
  (∀ l, JS.strip_first JS.white_space (c :: l) = None) →
  (∀ l, JS.strip_first (map reverse JS.white_space) (d :: l) = None) →
  JS.trim s = s.
Proof.
  intros Hstart Hend Hc Hd. unfold JS.trim.
  assert (Hs : JS.trim_start (String.list_ascii_of_string s)
               = String.list_ascii_of_string s).
  { rewrite Hstart. unfold JS.trim_start.
    cbn [String.list_ascii_of_string length JS.strip_all]. by rewrite Hc. }
  rewrite Hs.
  assert (He : JS.trim_end (String.list_ascii_of_string s)
               = String.list_ascii_of_string s).
  { rewrite Hend, list_ascii_of_string_app.
    cbn [String.list_ascii_of_string]. unfold JS.trim_end.
    rewrite reverse_app, length_app, Nat.add_1_r.
    change (reverse [d]) with [d]. cbn [app JS.strip_all]. rewrite Hd.
    by rewrite reverse_cons, reverse_involutive. }
  rewrite He. apply String.string_of_list_ascii_of_string.
Qed.

Lemma dquote_starts_no_space l :
  JS.strip_first JS.white_space (JS.dquote :: l) = None.
Proof. reflexivity. Qed.

Lemma dquote_ends_no_space l :
  JS.strip_first (map reverse JS.white_space) (JS.dquote :: l) = None.
Proof. reflexivity. Qed.

Lemma trim_quote cell : JS.trim (ProductSheet.quote cell) = ProductSheet.quote cell.
Proof.
  apply (trim_fixed _ (cell +:+ String JS.dquote EmptyString)
           (String JS.dquote cell) JS.dquote JS.dquote).
  - done.
  - done.
  - apply dquote_starts_no_space.
  - apply dquote_ends_no_space.
Qed.

(** The values of an exported line are its cells. *)
Lemma values_of_line (row : list string) :
  row ≠ [] → Forall plain_cell row →
  ProductSheet.values_of (JS.join "," (map ProductSheet.quote row)) = row.
Proof.
  intros Hne Hplain. unfold ProductSheet.values_of.
  change "," with (String JS.comma EmptyString).
  rewrite split_join.
  - rewrite <- list_fmap_compose.
    rewrite <- (list_fmap_id row) at 2. apply Forall_fmap_ext_1.
    eapply Forall_impl; [exact Hplain|]. intros cell (_ & Hq & _).
    unfold compose. by rewrite trim_quote, unquote.
  - by destruct row.
  - apply Forall_fmap. eapply Forall_impl; [exact Hplain|].
    intros cell (Hc & _ & _). by apply quote_without.
Qed.

Lemma line_without_newline (row : list string) :
  Forall plain_cell row →
  includes JS.newline (JS.join "," (map ProductSheet.quote row)) = false.
Proof.
  intros Hplain. apply join_without; [done|].
  apply Forall_fmap. eapply Forall_impl; [exact Hplain|].
  intros cell (_ & _ & Hn). by apply quote_without.
Qed.

Lemma append_assoc (a b c : string) : (a +:+ b) +:+ c = a +:+ (b +:+ c).
Proof.
  induction a as [|x a IH]; [done|].
  change (String x ((a +:+ b) +:+ c) = String x (a +:+ (b +:+ c))).
  by rewrite IH.
Qed.

Lemma join_ends_with d sep (parts : list string) last_part before :
  last parts = Some last_part →
  last_part = before +:+ String d EmptyString →
  ∃ before', JS.join sep parts = before' +:+ String d EmptyString.
Proof.
  revert before. induction parts as [|part rest IH]; intros before; [done|].
  destruct rest as [|part' rest].
  - intros [= ->] ->. by exists before.
  - intros Hlast Hbefore.
    destruct (IH before Hlast Hbefore) as [before' Hjoin].
    exists (part +:+ sep +:+ before').
    change (JS.join sep (part :: part' :: rest))
      with (part +:+ sep +:+ JS.join sep (part' :: rest)).
    rewrite Hjoin. by rewrite <- !append_assoc.
Qed.


Lemma line_ends_with_dquote (row : list string) :
  row ≠ [] →
  ∃ before,
    JS.join "," (map ProductSheet.quote row)
    = before +:+ String JS.dquote EmptyString.
Proof.
  intros [cell Hcell]%last_is_Some.
  apply (join_ends_with _ _ _ (ProductSheet.quote cell) (String JS.dquote cell)).
  - change (last (ProductSheet.quote <$> row) = Some (ProductSheet.quote cell)).
    by rewrite fmap_last, Hcell.
  - done.
Qed.

Lemma csv_trimmed (rows : list (list string)) :
  Forall (λ row, row ≠ []) rows →
  JS.trim (ProductSheet.csv rows) = ProductSheet.csv rows.
Proof.
  intros Hrows. destruct (decide (rows = [])) as [->|Hne]; [by vm_compute|].
  apply last_is_Some in Hne as [row Hrow].
  assert (Hin : row ≠ []).
  { apply last_Some in Hrow as [rows' ->].
    apply Forall_app in Hrows as [_ Hrows]. by inversion Hrows. }
  destruct (line_ends_with_dquote row Hin) as [before Hbefore].
  destruct (join_ends_with JS.dquote (String JS.newline EmptyString)
              (JS.join "," ProductSheet.headers
               :: map (λ row, JS.join "," (map ProductSheet.quote row)) rows)
              _ before
              ltac:(rewrite last_cons;
                    change (map ?f rows) with (f <$> rows);
                    rewrite fmap_last, Hrow; reflexivity)
              Hbefore) as [before' Hcsv].
  assert (Hstart : ∃ rest, ProductSheet.csv rows = String "M" rest).
  { unfold ProductSheet.csv. destruct rows; eexists; reflexivity. }
  destruct Hstart as [rest Hstart].
  by apply (trim_fixed _ rest before' "M" JS.dquote).
Qed.

(** X22 — a sheet written by [exportToExcel] and read back by
    [handleImportExcel] gives, line by line, the cells that were written,
    when every row has a cell and no cell holds a comma, a double quote or a
    line feed; spaces at either end of a cell survive, since the cell is
    trimmed inside its quotes. *)
Theorem product_sheet_round_trip (rows : list (list string)) :
  Forall (λ row, row ≠ [] ∧ Forall plain_cell row) rows →
  ProductSheet.imported_values (ProductSheet.csv rows) = rows.
Proof.
  intros Hrows. unfold ProductSheet.imported_values.
  rewrite csv_trimmed
    by (eapply Forall_impl; [exact Hrows|]; by intros row [? _]).
  unfold ProductSheet.csv.
  rewrite split_join; [cbn [tail]|done|].
  - change (map ?f (map ?g rows)) with (f <$> (g <$> rows)).
    rewrite <- list_fmap_compose.
    rewrite <- (list_fmap_id rows) at 2. apply Forall_fmap_ext_1.
    eapply Forall_impl; [exact Hrows|]. intros row [Hne Hplain].
    unfold compose. by apply values_of_line.
  - constructor; [by vm_compute|].
    apply Forall_fmap. eapply Forall_impl; [exact Hrows|].
    intros row [_ Hplain]. by apply line_without_newline.
Qed.

Lemma product_sheet_round_trip_witness :
  ProductSheet.imported_values
    (ProductSheet.csv
       [["S1"; "Rice 5kg"; ""; "bag"; "10"; "20"; "5"; "1"];
        ["S2"; " tea "; "drinks"; "box"; "1.5"; "2"; "3"; "4"]])
  = [["S1"; "Rice 5kg"; ""; "bag"; "10"; "20"; "5"; "1"];
     ["S2"; " tea "; "drinks"; "box"; "1.5"; "2"; "3"; "4"]].
Proof.
  apply (product_sheet_round_trip
           [["S1"; "Rice 5kg"; ""; "bag"; "10"; "20"; "5"; "1"];
            ["S2"; " tea "; "drinks"; "box"; "1.5"; "2"; "3"; "4"]]).
  repeat first [done | constructor].
Defined.


Lemma count_char_app c (a b : string) :
  count_char c (a +:+ b) = (count_char c a + count_char c b)%nat.
Proof.
  induction a as [|d a IH]; [done|].
  change (count_char c (String d (a +:+ b))
          = (count_char c (String d a) + count_char c b)%nat).
  cbn [count_char]. rewrite IH. lia.
Qed.

Lemma length_split sep (s : string) :
  length (JS.split sep s) = S (count_char sep s).
Proof.
  induction s as [|c s IH]; [done|]. cbn [JS.split count_char].
  destruct (Ascii.eqb c sep).
  - cbn [length]. by rewrite IH.
  - destruct (JS.split sep s) as [|first others]; [done|].
    cbn [length] in *. lia.
Qed.

Lemma count_char_join c (sep : string) (parts : list string) :
  parts ≠ [] →
  S (count_char c (JS.join sep parts))
  = (sum_list (count_char c <$> parts)
     + (length parts - 1) * count_char c sep + 1)%nat.
Proof.
  intros Hne. induction parts as [|part rest IH]; [done|].
  destruct rest as [|part' rest].
  - cbn. lia.
  - change (JS.join sep (part :: part' :: rest))
      with (part +:+ sep +:+ JS.join sep (part' :: rest)).
    rewrite !count_char_app.
    specialize (IH ltac:(done)).
    rewrite fmap_cons. cbn [sum_list sum_list_with length] in *.
    rewrite !Nat.sub_succ, !Nat.sub_0_r in *. unfold id in *. lia.
Qed.

Lemma count_char_quote c cell :
  c ≠ JS.dquote →
  count_char c (ProductSheet.quote cell) = count_char c cell.
Proof.
  intros Hc. unfold ProductSheet.quote. cbn [count_char].
  assert (Hq : Ascii.eqb JS.dquote c = false)
    by (apply Ascii.eqb_neq; congruence).
  rewrite count_char_app, Hq. cbn [count_char]. rewrite Hq. lia.
Qed.

(** X23 — every comma inside a cell adds one column to the line that
    [handleImportExcel] reads back from the sheet [exportToExcel] wrote: the
    cells are quoted on the way out, but the line is split at every comma on
    the way in. A product whose name holds a comma is read back with its later
    columns shifted. *)
Theorem comma_in_cell_adds_column (row : list string) :
  row ≠ [] →
  length (ProductSheet.values_of (JS.join "," (map ProductSheet.quote row)))
  = (length row + sum_list (count_char JS.comma <$> row))%nat.
Proof.
  intros Hne. unfold ProductSheet.values_of.
  rewrite length_map, length_split.
  rewrite count_char_join by (by destruct row).
  rewrite length_map.
  change (map ProductSheet.quote row) with (ProductSheet.quote <$> row).
  rewrite <- list_fmap_compose.
  replace (sum_list (count_char JS.comma ∘ ProductSheet.quote <$> row))
    with (sum_list (count_char JS.comma <$> row)).
  - change (count_char JS.comma ",") with 1%nat.
    destruct row; [done|]. cbn [length]. lia.
  - f_equal. apply list_fmap_ext. intros _ cell _.
    unfold compose. by rewrite count_char_quote.
Qed.

Lemma comma_in_cell_adds_column_witness :
  length (ProductSheet.values_of
            (JS.join "," (map ProductSheet.quote ["S1"; "Rice, 5kg"; ""; "bag"])))
  = 5%nat.
Proof.
  exact (comma_in_cell_adds_column ["S1"; "Rice, 5kg"; ""; "bag"] ltac:(done)).
Defined.
